(** * Code_Feeder_Skill: the text-structure engine of [code_cleaner.py] and
    [code_collector.py], embedded as Rocq functions.

    Text is a [string]; each [ascii] stands for one character of a Python
    [str] (code points below 256).  Python dictionaries with a fixed set of
    keys are records, a key that may be absent is an [option] field, the
    [languages] dictionary is a [gmap], Python sets of paths are [gset]s. *)

From Stdlib Require Import ZArith QArith Ascii String.
From stdpp Require Import base option list gmap strings pretty.

Open Scope string_scope.
Open Scope list_scope.
Open Scope Z_scope.

(* stdpp blocks [simpl] on string append; the scanner proofs unfold it. *)
#[global] Arguments String.append !_ _ / : simpl nomatch.

(** ** Python built-ins used by the two scripts *)

Module Py.

Definition code (c : ascii) : N := N_of_ascii c.

(** [str.isspace] on one character (code points below 256); this is also the
    set that [strip], [lstrip] and the regex class [\s] remove or match. *)
Definition is_space (c : ascii) : bool :=
  let n := code c in
  ((9 <=? n) && (n <=? 13) || (28 <=? n) && (n <=? 32) || (n =? 133) || (n =? 160))%N.

(** The line boundaries of [str.splitlines] below 256. *)
Definition is_linebreak (c : ascii) : bool :=
  let n := code c in
  ((10 <=? n) && (n <=? 13) || (28 <=? n) && (n <=? 30) || (n =? 133))%N.

(** [s.splitlines()]: no empty last line, [\r\n] is one boundary.  [cur] is
    the current line, reversed. *)
Fixpoint splitlines_go (cur : string) (s : string) : list string :=
  match s with
  | EmptyString =>
      match cur with EmptyString => [] | _ => [String.rev cur] end
  | String c r =>
      if Ascii.eqb c "013" then
        match r with
        | String "010"%char r' => String.rev cur :: splitlines_go EmptyString r'
        | _ => String.rev cur :: splitlines_go EmptyString r
        end
      else if is_linebreak c then String.rev cur :: splitlines_go EmptyString r
      else splitlines_go (String c cur) r
  end.

Definition splitlines (s : string) : list string := splitlines_go EmptyString s.

(** [sep.join(parts)] *)
Fixpoint join (sep : string) (parts : list string) : string :=
  match parts with
  | [] => EmptyString
  | [p] => p
  | p :: rest => p +:+ sep +:+ join sep rest
  end.

Fixpoint lstrip (s : string) : string :=
  match s with
  | String c r => if is_space c then lstrip r else s
  | EmptyString => EmptyString
  end.

Definition rstrip (s : string) : string := String.rev (lstrip (String.rev s)).

Definition strip (s : string) : string := rstrip (lstrip s).

Definition startswith (s prefix : string) : bool := String.prefix prefix s.

Definition endswith (s suffix : string) : bool :=
  String.prefix (String.rev suffix) (String.rev s).

(** [str.lower] on one character below 256. *)
Definition lower_char (c : ascii) : ascii :=
  let n := code c in
  if ((65 <=? n) && (n <=? 90)
      || (192 <=? n) && (n <=? 222) && negb (n =? 215))%N
  then ascii_of_N (n + 32) else c.

Fixpoint lower (s : string) : string :=
  match s with
  | EmptyString => EmptyString
  | String c r => String (lower_char c) (lower r)
  end.

(** [l[start:stop]] with Python's treatment of negative and out-of-range
    indices. *)
Definition slice_index (n i : Z) : Z :=
  if i <? 0 then Z.max (i + n) 0 else Z.min i n.

Definition slice {A} (l : list A) (start stop : Z) : list A :=
  let n := Z.of_nat (length l) in
  let s := slice_index n start in
  let e := slice_index n stop in
  take (Z.to_nat (e - s)) (drop (Z.to_nat s) l).

(** [x in l] for a list of strings. *)
Definition mem (x : string) (l : list string) : bool :=
  existsb (String.eqb x) l.

End Py.

(** ** The part of Python's [re] that the scripts use

    [re.search] is only ever used for its truth value, so a pattern is
    modelled by the language it denotes and searched with derivatives. *)

Module Re.

Inductive regex :=
| Empty
| Eps
| Class (p : ascii -> bool)
| Cat (r1 r2 : regex)
| Alt (r1 r2 : regex)
| Star (r : regex).

Definition Chr (c : ascii) : regex := Class (Ascii.eqb c).

(** [re.escape(s)]: the text [s] itself. *)
Fixpoint Lit (s : string) : regex :=
  match s with
  | EmptyString => Eps
  | String c r => Cat (Chr c) (Lit r)
  end.

Definition Plus (r : regex) : regex := Cat r (Star r).
Definition Opt (r : regex) : regex := Alt r Eps.
Definition Not (c : ascii) : regex := Class (fun x => negb (Ascii.eqb x c)).

Fixpoint Seq (rs : list regex) : regex :=
  match rs with
  | [] => Eps
  | [r] => r
  | r :: rest => Cat r (Seq rest)
  end.

Fixpoint Any (rs : list regex) : regex :=
  match rs with
  | [] => Empty
  | [r] => r
  | r :: rest => Alt r (Any rest)
  end.

(** [\w] below 256: alphanumeric or underscore. *)
Definition is_word (c : ascii) : bool :=
  let n := Py.code c in
  ((48 <=? n) && (n <=? 57) || (65 <=? n) && (n <=? 90) || (97 <=? n) && (n <=? 122)
   || (n =? 95) || (n =? 170) || (n =? 178) || (n =? 179) || (n =? 181)
   || (n =? 185) || (n =? 186) || (188 <=? n) && (n <=? 190)
   || (192 <=? n) && (n <=? 214) || (216 <=? n) && (n <=? 246) || (248 <=? n))%N.

(** [\s], [\w] and [.] *)
Definition ws : regex := Class Py.is_space.
Definition word : regex := Class is_word.
Definition dot : regex := Class (fun c => negb (Ascii.eqb c "010")).

Fixpoint nullable (r : regex) : bool :=
  match r with
  | Empty => false
  | Eps => true
  | Class _ => false
  | Cat r1 r2 => nullable r1 && nullable r2
  | Alt r1 r2 => nullable r1 || nullable r2
  | Star _ => true
  end.

Fixpoint deriv (a : ascii) (r : regex) : regex :=
  match r with
  | Empty => Empty
  | Eps => Empty
  | Class p => if p a then Eps else Empty
  | Cat r1 r2 =>
      if nullable r1 then Alt (Cat (deriv a r1) r2) (deriv a r2)
      else Cat (deriv a r1) r2
  | Alt r1 r2 => Alt (deriv a r1) (deriv a r2)
  | Star r1 => Cat (deriv a r1) (Star r1)
  end.

(** Some prefix of [s] is in the language of [r]. *)
Fixpoint match_prefix (r : regex) (s : string) : bool :=
  nullable r ||
  match s with
  | EmptyString => false
  | String a s' => match_prefix (deriv a r) s'
  end.

(** Some substring of [s] is in the language of [r]. *)
Fixpoint match_anywhere (r : regex) (s : string) : bool :=
  match_prefix r s ||
  match s with
  | EmptyString => false
  | String _ s' => match_anywhere r s'
  end.

Definition head (s : string) : option ascii :=
  match s with
  | EmptyString => None
  | String c _ => Some c
  end.

Fixpoint last_of (prev : option ascii) (s : string) : option ascii :=
  match s with
  | EmptyString => prev
  | String c r => last_of (Some c) r
  end.

Fixpoint strip_prefix (p s : string) : option string :=
  match p, s with
  | EmptyString, _ => Some s
  | String a p', String b s' => if Ascii.eqb a b then strip_prefix p' s' else None
  | String _ _, EmptyString => None
  end.

(** [\b] between two neighbouring characters (absent at either end of the
    text). *)
Definition boundary (before after : option ascii) : bool :=
  xorb (from_option is_word false before) (from_option is_word false after).

(** [\bNAME\b] found at or after the start of [s], which follows [prev]. *)
Fixpoint word_bounded_search (name : string) (prev : option ascii) (s : string) : bool :=
  match strip_prefix name s with
  | Some rest => boundary prev (head s) && boundary (last_of prev name) (head rest)
  | None => false
  end ||
  match s with
  | EmptyString => false
  | String c r => word_bounded_search name (Some c) r
  end.

(** A pattern as written in the scripts: starting with [^], starting
    anywhere, or the word-bounded name [\bNAME\b]. *)
Inductive pattern :=
| Anchored (r : regex)
| Floating (r : regex)
| WordBounded (name : string).

(** [bool(re.search(pattern, s))] *)
Definition search (p : pattern) (s : string) : bool :=
  match p with
  | Anchored r => match_prefix r s
  | Floating r => match_anywhere r s
  | WordBounded name => word_bounded_search name None s
  end.

End Re.

(** ** code_cleaner.py *)

Module Cleaner.

(** The loop state of [hollow_out_function_bodies].  [output] is the Python
    list of pieces that is joined at the end; a piece is one character or the
    placeholder. *)
Record scan_state := mk_scan {
  output : list string;
  brace_depth : Z;
  in_string : bool;
  in_char : bool
}.

Definition init_scan : scan_state := mk_scan [] 0 false false.

Definition placeholder : string := " /* ... */ ".

Definition str1 (c : ascii) : string := String c EmptyString.

Definition dquote : ascii := "034"%char.
Definition squote : ascii := "039"%char.

(** [i == 0 or content[i - 1] != '\\'], with [prev] the character at [i - 1]
    ([None] when [i == 0]). *)
Definition unescaped (prev : option ascii) : bool :=
  match prev with
  | None => true
  | Some p => negb (Ascii.eqb p "\")
  end.

(** [output and output[-1] == '{'] *)
Definition last_is_open (out : list string) : bool :=
  match last out with
  | Some s => String.eqb s "{"
  | None => false
  end.

Definition emit (piece : string) (st : scan_state) : scan_state :=
  mk_scan (output st ++ [piece]) (brace_depth st) (in_string st) (in_char st).

(** One iteration of the [while] loop at character [char]. *)
Definition scan_step (prev : option ascii) (st : scan_state) (char : ascii)
  : scan_state :=
  if Ascii.eqb char dquote && unescaped prev then
    mk_scan (output st ++ [str1 char]) (brace_depth st)
            (negb (in_string st)) (in_char st)
  else if Ascii.eqb char squote && unescaped prev then
    mk_scan (output st ++ [str1 char]) (brace_depth st)
            (in_string st) (negb (in_char st))
  else if in_string st || in_char st then
    emit (str1 char) st
  else if Ascii.eqb char "{" then
    mk_scan (if brace_depth st =? 0 then output st ++ ["{"] else output st)
            (brace_depth st + 1) (in_string st) (in_char st)
  else if Ascii.eqb char "}" then
    let d := brace_depth st - 1 in
    mk_scan (if d =? 0 then output st ++ ["}"] else output st)
            d (in_string st) (in_char st)
  else if brace_depth st =? 0 then
    emit (str1 char) st
  else if (brace_depth st =? 1) && last_is_open (output st) then
    emit placeholder st
  else st.

(** The [while i < length] loop over the characters from position [i] on. *)
Fixpoint scan (prev : option ascii) (st : scan_state) (content : string)
  : scan_state :=
  match content with
  | EmptyString => st
  | String char rest => scan (Some char) (scan_step prev st char) rest
  end.

(** ["".join(output)] *)
Definition join_pieces (out : list string) : string :=
  foldr String.append EmptyString out.

Definition hollow_out_function_bodies (content : string) : string :=
  join_pieces (output (scan None init_scan content)).

(** [is_junk_filename(filename)] with no extra patterns; [re.IGNORECASE]
    is rendered by matching the lowered file name against the lowered
    patterns. *)
Definition base_patterns : list Re.pattern :=
  [ Re.Floating (Re.Seq [Re.Lit "stm32"; Re.Star Re.dot; Re.Lit "xx"]);
    Re.Floating (Re.Lit "system_");
    Re.Floating (Re.Lit "stm32f4xx_hal_conf");
    Re.Floating (Re.Lit "freertosconfig") ].

Definition is_junk_filename (filename : string) : bool :=
  existsb (fun pattern => Re.search pattern (Py.lower filename)) base_patterns.

(** The loop state of [_extract_python_skeleton]. *)
Record skeleton_state := mk_skeleton {
  result : list string;
  skip_body_indent : option nat;
  pending_decorators : list string
}.

Definition indent_of (line : string) : nat :=
  (String.length line - String.length (Py.lstrip line))%nat.

Definition is_def_line (stripped : string) : bool :=
  Py.startswith stripped "def " || Py.startswith stripped "async def ".

Definition skeleton_step (st : skeleton_state) (line : string) : skeleton_state :=
  let stripped := Py.strip line in
  let current_indent := indent_of line in
  let skipping :=
    match skip_body_indent st with
    | Some skip => String.eqb stripped EmptyString || (skip <? current_indent)%nat
    | None => false
    end in
  if skipping then st
  else
    (* [skip_body_indent = None] from here on *)
    if Py.startswith stripped "@" then
      mk_skeleton (result st) None (pending_decorators st ++ [line])
    else if is_def_line stripped || Py.startswith stripped "class " then
      mk_skeleton (result st ++ pending_decorators st ++ [line])
                  (if is_def_line stripped then Some current_indent else None)
                  []
    else mk_skeleton (result st) None [].

Definition _extract_python_skeleton (content : string) : string :=
  Py.join (String "010" EmptyString)
    (result (foldl skeleton_step (mk_skeleton [] None []) (Py.splitlines content))).

(** Every extension other than [.py] ends in the brace skeletonizer. *)
Definition extract_code_skeleton (content ext : string) : string :=
  if String.eqb (Py.lower ext) ".py" then _extract_python_skeleton content
  else hollow_out_function_bodies content.

End Cleaner.

(** ** code_collector.py *)

Module Collector.

Import Cleaner.

Local Open Scope nat_scope.

(** *** The dictionaries that travel between the methods *)

Inductive skip_reason :=
| TooLarge (file_size_kb : Q) (max_size_kb : Z)
| EncodingError
| JunkFile
| ReasonText (text : string).

(** One entry of ["files"].  Entries parsed back from a document carry no
    ["lines"] and no ["size_kb"]. *)
Record file_info := mk_file {
  fi_path : string;
  fi_content : string;
  fi_language : string;
  fi_lines : option nat;
  fi_size_kb : option Q
}.

(** One extracted snippet: ["name"] for a named entity, ["range"] for a
    line range. *)
Record snippet := mk_snippet {
  sn_type : string;
  sn_name : option string;
  sn_range : option string;
  sn_content : string;
  sn_lines : option nat
}.

(** [{"file_path": ..., "snippets": [...]}] *)
Record snippet_group := mk_group {
  sg_file_path : string;
  sg_snippets : list snippet
}.

Record skipped_entry := mk_skipped {
  sk_path : string;
  sk_reason : skip_reason;
  sk_size_kb : option Q;
  sk_lines : option nat
}.

Record stats := mk_stats {
  total_files : nat;
  total_lines : nat;
  languages : gmap string nat
}.

(** What [parse_existing_markdown] returns and [merge_markdown_data]
    produces; ["files"] is the dictionary with the two buckets. *)
Record snapshot := mk_snapshot {
  header : string;
  files_core : list file_info;
  files_other : list file_info;
  snippets : list snippet_group;
  structure : string;
  snap_stats : stats;
  skipped_files : list skipped_entry
}.

Inductive error_kind :=
| FileNotFound (file_path : string)
| CannotRead (file_path : string).

(** What [batch_import] and [extract_snippets] return: a dictionary in
    which each key may be absent. *)
Record partial_result := mk_partial {
  pr_error : option error_kind;
  pr_file_path : option string;
  pr_files : option (list file_info);
  pr_snippets : option (list snippet_group);
  pr_structure : option string;
  pr_stats : option stats;
  pr_skipped_files : option (list skipped_entry);
  pr_total_lines : option nat
}.

(** One element of [ranges]. *)
Record range_spec := mk_range {
  rs_type : string;
  rs_start : option Z;
  rs_end : option Z;
  rs_name : option string
}.

(** *** The world outside the scripts *)

Record file_data := mk_file_data {
  st_size : Z;                 (* bytes *)
  decoded : option string;     (* [None]: no encoding of the list decodes it *)
  raw_line_count : option nat  (* [_count_lines] *)
}.

Inductive fs_node :=
| Absent
| Directory
| RegularFile (f : file_data).

(** The file system and the library calls whose results the scripts only
    pass around: pathlib, the regex substitutions of [remove_comments], and
    the rendering of the directory tree. *)
Record world := mk_world {
  fs : string -> fs_node;
  resolve_path : string -> string;         (* [str(self._resolve_path(p))] *)
  relative_to_project : string -> string;  (* [str(rel_path)] of an absolute path *)
  path_suffix : string -> string;          (* [Path(p).suffix] *)
  path_name : string -> string;            (* [Path(p).name] *)
  remove_comments : string -> string -> string;
  _generate_tree_structure : list string -> string
}.

Inductive clean_mode_t := CleanNone | CleanComments | CleanSkeleton.

(** [self]: the configuration read in [__init__], and whether the import of
    [code_cleaner] succeeded. *)
Record CodeCollector := mk_collector {
  core_files : list string;
  max_file_size_kb : Z;
  clean_mode : clean_mode_t;
  remove_junk : bool;
  HAS_CODE_CLEANER : bool
}.

Definition lang_map : list (string * string) :=
  [ (".py", "python"); (".js", "javascript"); (".ts", "typescript");
    (".jsx", "jsx"); (".tsx", "tsx"); (".java", "java");
    (".cpp", "cpp"); (".c", "c"); (".h", "c"); (".hpp", "cpp");
    (".cs", "csharp"); (".go", "go"); (".rs", "rust");
    (".rb", "ruby"); (".php", "php"); (".swift", "swift");
    (".kt", "kotlin"); (".scala", "scala"); (".r", "r");
    (".m", "objective-c"); (".sql", "sql"); (".sh", "bash");
    (".yaml", "yaml"); (".yml", "yaml"); (".json", "json");
    (".xml", "xml"); (".html", "html"); (".css", "css");
    (".scss", "scss"); (".sass", "sass"); (".md", "markdown");
    (".vue", "vue"); (".svelte", "svelte") ].

Fixpoint assoc (k : string) (l : list (string * string)) : option string :=
  match l with
  | [] => None
  | (k', v) :: rest => if String.eqb k k' then Some v else assoc k rest
  end.

Section Methods.

Context (w : world) (self : CodeCollector).

Definition _detect_language (path : string) : string :=
  default "text" (assoc (Py.lower (path_suffix w path)) lang_map).

Definition _is_core_file (file_path : string) : bool :=
  existsb (fun core =>
             String.eqb file_path core
             || String.eqb (path_name w file_path) core
             || Py.endswith file_path core)
          (core_files self).

(** *** batch_import *)

Record import_state := mk_import {
  im_files : list file_info;
  im_skipped : list skipped_entry;
  im_collected : list string;
  im_total_lines : nat;
  im_languages : gmap string nat
}.

Definition clean (content ext : string) : string :=
  if HAS_CODE_CLEANER self then
    match clean_mode self with
    | CleanNone => content
    | CleanComments => remove_comments w content ext
    | CleanSkeleton => extract_code_skeleton content ext
    end
  else content.

Definition skip (st : import_state) (e : skipped_entry) : import_state :=
  mk_import (im_files st) (im_skipped st ++ [e]) (im_collected st)
            (im_total_lines st) (im_languages st).

(** The body of [for file_path in file_paths]. *)
Definition import_step (st : import_state) (file_path : string) : import_state :=
  let abs_path := resolve_path w file_path in
  match fs w abs_path with
  | Absent | Directory => st
  | RegularFile f =>
      (* file_size_kb = st_size / 1024 > max_size_kb *)
      if (1024 * max_file_size_kb self <? st_size f)%Z then
        skip st (mk_skipped file_path
                   (TooLarge (Qmake (st_size f) 1024) (max_file_size_kb self))
                   (Some (Qmake (st_size f) 1024)) (raw_line_count f))
      else
        match decoded f with
        | None => skip st (mk_skipped file_path EncodingError None None)
        | Some content =>
            let rel_path := relative_to_project w abs_path in
            if remove_junk self && HAS_CODE_CLEANER self && is_junk_filename rel_path then
              skip st (mk_skipped file_path JunkFile None None)
            else
              let content := clean content (Py.lower (path_suffix w abs_path)) in
              let language := _detect_language abs_path in
              let lines := length (Py.splitlines content) in
              mk_import
                (im_files st ++ [mk_file rel_path content language (Some lines)
                                         (Some (Qmake (st_size f) 1024))])
                (im_skipped st)
                (im_collected st ++ [rel_path])
                (im_total_lines st + lines)
                (<[language := default 0 (im_languages st !! language) + 1]>
                   (im_languages st))
        end
  end.

Definition batch_import (file_paths : list string) : partial_result :=
  let st := foldl import_step (mk_import [] [] [] 0 ∅) file_paths in
  mk_partial None None
    (Some (im_files st))
    None
    (Some (_generate_tree_structure w (im_collected st)))
    (Some (mk_stats (length (im_files st)) (im_total_lines st) (im_languages st)))
    (Some (im_skipped st))
    None.

(** *** The entity locator *)

(** What the choice of the pattern ends in: an early [return None, 0], a
    pattern, or the [TypeError] of [re.escape(None)]. *)
Inductive pattern_choice :=
| NoPattern
| Pattern (p : Re.pattern)
| Raises.

Definition with_name (name : option string) (k : Re.regex -> Re.pattern)
  : pattern_choice :=
  match name with
  | Some n => Pattern (k (Re.Lit n))
  | None => Raises
  end.

Definition ws_star : Re.regex := Re.Star Re.ws.
Definition ws_plus : Re.regex := Re.Plus Re.ws.

(** The [if file_ext in ...] chain of [_extract_by_name]. *)
Definition select_pattern (name : option string) (element_type file_ext : string)
  : pattern_choice :=
  let fn_or_method := Py.mem element_type ["function"; "method"] in
  if Py.mem file_ext [".py"] then
    if String.eqb element_type "function" then
      with_name name (fun N =>
        Re.Anchored (Re.Seq [ws_star; Re.Lit "def"; ws_plus; N; ws_star; Re.Chr "("]))
    else if String.eqb element_type "class" then
      with_name name (fun N =>
        Re.Anchored (Re.Seq [ws_star; Re.Lit "class"; ws_plus; N; ws_star;
                             Re.Alt (Re.Chr "(") (Re.Chr ":")]))
    else NoPattern
  else if Py.mem file_ext [".js"; ".ts"; ".jsx"; ".tsx"; ".html"; ".htm"; ".vue"] then
    if String.eqb element_type "function" then
      with_name name (fun N =>
        Re.Anchored (Re.Any
          [ Re.Seq [ws_star; Re.Lit "function"; ws_plus; N; ws_star; Re.Chr "("];
            Re.Seq [ws_star; Re.Lit "async"; ws_plus; Re.Lit "function"; ws_plus; N;
                    ws_star; Re.Chr "("];
            Re.Seq [ws_star; Re.Lit "const"; ws_plus; N; ws_star; Re.Chr "="];
            Re.Seq [ws_star; Re.Lit "let"; ws_plus; N; ws_star; Re.Chr "="];
            Re.Seq [ws_star; Re.Lit "var"; ws_plus; N; ws_star; Re.Chr "="] ]))
    else if String.eqb element_type "class" then
      with_name name (fun N =>
        Re.Anchored (Re.Seq [ws_star; Re.Lit "class"; ws_plus; N; ws_star]))
    else NoPattern
  else if Py.mem file_ext [".java"; ".kt"; ".cs"] then
    if fn_or_method then
      with_name name (fun N => Re.Floating (Re.Seq [ws_plus; N; ws_star; Re.Chr "("]))
    else if String.eqb element_type "class" then
      with_name name (fun N => Re.Floating (Re.Seq [Re.Lit "class"; ws_plus; N; ws_star]))
    else NoPattern
  else if Py.mem file_ext [".go"] then
    if fn_or_method then
      with_name name (fun N =>
        Re.Anchored (Re.Seq
          [ ws_star; Re.Lit "func"; ws_plus;
            Re.Opt (Re.Seq [Re.Chr "("; Re.Plus (Re.Not ")"); Re.Chr ")"; ws_star]);
            N; ws_star; Re.Chr "(" ]))
    else if String.eqb element_type "type" then
      with_name name (fun N =>
        Re.Anchored (Re.Seq [ws_star; Re.Lit "type"; ws_plus; N; ws_star]))
    else NoPattern
  else if Py.mem file_ext [".rs"] then
    let rust keyword :=
      with_name name (fun N =>
        Re.Anchored (Re.Seq [ws_star; Re.Opt (Re.Seq [Re.Lit "pub"; ws_plus]);
                             Re.Lit keyword; ws_plus; N; ws_star])) in
    if fn_or_method then rust "fn"
    else if String.eqb element_type "struct" then rust "struct"
    else if String.eqb element_type "enum" then rust "enum"
    else NoPattern
  else if Py.mem file_ext [".cpp"; ".cc"; ".cxx"; ".hpp"] then
    if fn_or_method then
      with_name name (fun N =>
        Re.Anchored (Re.Seq
          [ ws_star;
            Re.Opt (Re.Seq [Re.Lit "template"; ws_star; Re.Chr "<";
                            Re.Star (Re.Not ">"); Re.Chr ">"; ws_star]);
            Re.Opt (Re.Seq [Re.Lit "inline"; ws_plus]);
            Re.Any [ Re.Lit "void"; Re.Lit "int"; Re.Lit "string"; Re.Lit "bool";
                     Re.Lit "auto"; Re.Seq [Re.Lit "auto"; ws_plus];
                     Re.Plus (Re.Alt Re.word (Re.Chr ":")) ];
            ws_plus; N; ws_star; Re.Chr "(" ]))
    else if String.eqb element_type "class" then
      with_name name (fun N =>
        Re.Anchored (Re.Seq [ws_star; Re.Lit "class"; ws_plus; N; ws_star;
                             Re.Alt (Re.Chr ":") (Re.Chr "{")]))
    else NoPattern
  else
    match name with
    | Some n => Pattern (Re.WordBounded n)
    | None => Raises
    end.

(** The first index [i >= i0] with [re.search(pattern, lines[i])]. *)
Fixpoint find_definition (pattern : Re.pattern) (i0 : nat) (lines : list string)
  : option nat :=
  match lines with
  | [] => None
  | line :: rest =>
      if Re.search pattern line then Some i0 else find_definition pattern (S i0) rest
  end.

Definition brace_languages : list string :=
  [ ".js"; ".ts"; ".jsx"; ".tsx"; ".html"; ".htm"; ".vue";
    ".java"; ".kt"; ".cs"; ".cpp"; ".c"; ".cc"; ".cxx"; ".h"; ".hpp";
    ".go"; ".rs" ].

(** [line[:line.index('//')]] when ['//' in line], else the line. *)
Fixpoint code_part (line : string) : string :=
  match line with
  | String "/" (String "/" _) => EmptyString
  | String c rest => String c (code_part rest)
  | EmptyString => EmptyString
  end.

(** The [for char in code_part] loop; [None] is the [return i + 1]. *)
Fixpoint count_braces (brace_count : Z) (found_opening : bool) (chars : string)
  : option (Z * bool) :=
  match chars with
  | EmptyString => Some (brace_count, found_opening)
  | String char rest =>
      let '(brace_count, found_opening) :=
        if Ascii.eqb char "{" then ((brace_count + 1)%Z, true)
        else if Ascii.eqb char "}" then ((brace_count - 1)%Z, found_opening)
        else (brace_count, found_opening) in
      if found_opening && (brace_count =? 0)%Z then None
      else count_braces brace_count found_opening rest
  end.

Fixpoint closing_brace_loop (brace_count : Z) (found_opening : bool)
    (i : nat) (rest : list string) : option nat :=
  match rest with
  | [] => None
  | line :: rest' =>
      match count_braces brace_count found_opening (code_part line) with
      | None => Some (i + 1)
      | Some (brace_count, found_opening) =>
          closing_brace_loop brace_count found_opening (S i) rest'
      end
  end.

Definition _find_closing_brace (lines : list string) (start_line : nat) : nat :=
  default (length lines)
          (closing_brace_loop 0 false start_line (drop start_line lines)).

Definition is_blank (line : string) : bool := String.eqb (Py.strip line) EmptyString.

(** The [for i in range(start_line + 1, len(lines))] loop; [None] is the
    [else] of the [for]. *)
Fixpoint end_by_indent_loop (base_indent : nat) (i : nat) (rest : list string)
  : option nat :=
  match rest with
  | [] => None
  | line :: rest' =>
      if is_blank line then end_by_indent_loop base_indent (S i) rest'
      else if (indent_of line <=? base_indent) && negb (is_blank line) then Some i
      else end_by_indent_loop base_indent (S i) rest'
  end.

Definition _find_end_by_indent (lines : list string) (start_line : nat) : nat :=
  let base_indent := indent_of (default EmptyString (lines !! start_line)) in
  default (length lines)
          (end_by_indent_loop base_indent (start_line + 1) (drop (start_line + 1) lines)).

Definition newline : string := String "010" EmptyString.

(** [_extract_by_name]; the outer [None] is an uncaught exception. *)
Definition _extract_by_name (content : string) (name : option string)
    (element_type file_ext : string) (skeleton_mode : bool)
  : option (option string * nat) :=
  let lines := Py.splitlines content in
  match select_pattern name element_type file_ext with
  | Raises => None
  | NoPattern => Some (None, 0)
  | Pattern pattern =>
      match find_definition pattern 0 lines with
      | None => Some (None, 0)
      | Some start_line =>
          let end_line :=
            if Py.mem file_ext brace_languages
            then _find_closing_brace lines start_line
            else _find_end_by_indent lines start_line in
          let snippet_lines := Py.slice lines (Z.of_nat start_line) (Z.of_nat end_line) in
          let snippet_content := Py.join newline snippet_lines in
          if skeleton_mode && HAS_CODE_CLEANER self then
            let cleaned := extract_code_skeleton snippet_content file_ext in
            Some (Some cleaned, length (Py.splitlines cleaned))
          else Some (Some snippet_content, length snippet_lines)
      end
  end.

(** *** extract_snippets *)

(** The body of [for range_spec in ranges]: the snippet of one spec, if
    any; the outer [None] is an uncaught exception. *)
Definition extract_one (content : string) (lines : list string) (file_ext : string)
    (range_spec : range_spec) : option (option snippet) :=
  if String.eqb (rs_type range_spec) "lines" then
    let start := (default 1 (rs_start range_spec) - 1)%Z in
    let end_ := default (Z.of_nat (length lines)) (rs_end range_spec) in
    let snippet_lines := Py.slice lines start end_ in
    Some (Some (mk_snippet "lines" None
                  (Some (pretty (start + 1)%Z +:+ "-" +:+ pretty end_))
                  (Py.join newline snippet_lines)
                  (Some (length snippet_lines))))
  else if Py.mem (rs_type range_spec) ["function"; "class"; "method"] then
    match _extract_by_name content (rs_name range_spec) (rs_type range_spec) file_ext
            (match clean_mode self with CleanSkeleton => true | _ => false end) with
    | None => None
    | Some (Some snippet_content, snippet_lines) =>
        if String.eqb snippet_content EmptyString then Some None
        else Some (Some (mk_snippet (rs_type range_spec) (rs_name range_spec) None
                           snippet_content (Some snippet_lines)))
    | Some (None, _) => Some None
    end
  else Some None.

(** The loop over [ranges], threading [result["snippets"]] and
    [result["total_lines"]]. *)
Fixpoint extract_loop (content : string) (lines : list string) (file_ext : string)
    (ranges : list range_spec) (found : list snippet) (total : nat)
  : option (list snippet * nat) :=
  match ranges with
  | [] => Some (found, total)
  | range_spec :: rest =>
      match extract_one content lines file_ext range_spec with
      | None => None
      | Some None => extract_loop content lines file_ext rest found total
      | Some (Some s) =>
          extract_loop content lines file_ext rest
            (found ++ [s]) (total + default 0 (sn_lines s))
      end
  end.

Definition error_result (e : error_kind) : partial_result :=
  mk_partial (Some e) None None None None None None None.

(** [extract_snippets]; [None] is an uncaught exception (a directory as the
    target, a named spec without a name). *)
Definition extract_snippets (file_path : string) (ranges : list range_spec)
  : option partial_result :=
  let abs_path := resolve_path w file_path in
  match fs w abs_path with
  | Absent => Some (error_result (FileNotFound file_path))
  | Directory => None
  | RegularFile f =>
      match decoded f with
      | None => Some (error_result (CannotRead file_path))
      | Some content =>
          let lines := Py.splitlines content in
          match extract_loop content lines (path_suffix w abs_path) ranges [] 0 with
          | None => None
          | Some (found, total) =>
              let language := _detect_language abs_path in
              Some (mk_partial None (Some file_path) None
                      (Some [mk_group file_path found])
                      None
                      (Some (mk_stats 1 total {[ language := 1 ]}))
                      None
                      (Some total))
          end
      end
  end.

(** *** parse_existing_markdown: the statistics derived from the parsed
    content (the last block of the method) *)

Definition content_lines (content : string) : nat := length (Py.splitlines content).

Definition sum_list (l : list nat) : nat := foldr Nat.add 0 l.

Definition count_language (langs : gmap string nat) (lang : string) : gmap string nat :=
  <[lang := default 0 (langs !! lang) + 1]> langs.

Definition derived_total_lines (all_files : list file_info)
    (snippet_groups : list snippet_group) : nat :=
  sum_list ((fun f => content_lines (fi_content f)) <$> all_files)
  + sum_list ((fun g => sum_list ((fun s => content_lines (sn_content s)) <$> sg_snippets g))
                <$> snippet_groups).

Definition derived_stats (all_files : list file_info)
    (snippet_groups : list snippet_group) : stats :=
  let languages :=
    foldl (fun langs g => count_language langs (_detect_language (sg_file_path g)))
      (foldl (fun langs f =>
                count_language langs
                  (if String.eqb (fi_language f) EmptyString then "text" else fi_language f))
             ∅ all_files)
      snippet_groups in
  mk_stats (length all_files + length snippet_groups)
           (derived_total_lines all_files snippet_groups)
           languages.

(** *** merge_markdown_data *)

(** [s.get("name") or s.get("range")] *)
Definition snippet_id (s : snippet) : option string :=
  match sn_name s with
  | Some n => if String.eqb n EmptyString then sn_range s else Some n
  | None => sn_range s
  end.

(** The file list, deduplicated against the paths present before the loop. *)
Definition merge_file (existing_paths : gset string)
    (buckets : list file_info * list file_info) (info : file_info)
  : list file_info * list file_info :=
  if decide (fi_path info ∈ existing_paths) then buckets
  else if _is_core_file (fi_path info)
       then (buckets.1 ++ [info], buckets.2)
       else (buckets.1, buckets.2 ++ [info]).

Definition merge_files (core other : list file_info) (new_files : list file_info)
  : list file_info * list file_info :=
  let existing_paths : gset string := list_to_set (fi_path <$> (core ++ other)) in
  foldl (merge_file existing_paths) (core, other) new_files.

(** [{s["file_path"]: i for i, s in enumerate(groups)}]: a later group with
    the same path takes the entry. *)
Fixpoint index_groups (i : nat) (groups : list snippet_group) (m : gmap string nat)
  : gmap string nat :=
  match groups with
  | [] => m
  | g :: rest => index_groups (S i) rest (<[sg_file_path g := i]> m)
  end.

(** The snippets of one new group go to the end of the group at [idx], but
    for those whose id was in that group before. *)
Definition extend_group (g : snippet_group) (new_snippets : list snippet)
  : snippet_group :=
  let existing_snippet_names : gset (option string) :=
    list_to_set (snippet_id <$> sg_snippets g) in
  mk_group (sg_file_path g)
    (sg_snippets g
     ++ filter (fun s => snippet_id s ∉ existing_snippet_names) new_snippets).

Definition merge_group (existing_snippet_files : gmap string nat)
    (merged : list snippet_group) (snippet_data : snippet_group)
  : list snippet_group :=
  match existing_snippet_files !! sg_file_path snippet_data with
  | Some idx => alter (fun g => extend_group g (sg_snippets snippet_data)) idx merged
  | None => merged ++ [snippet_data]
  end.

Definition merge_snippets (old new_groups : list snippet_group) : list snippet_group :=
  foldl (merge_group (index_groups 0 old ∅)) old new_groups.

(** [_merge_tree_structures]: the old tree wins whenever there is one. *)
Definition _merge_tree_structures (existing new : string) : string :=
  if String.eqb existing EmptyString then new
  else if String.eqb new EmptyString then existing
  else existing.

Definition merge_structure (old : string) (new : option string) : string :=
  match new with
  | Some n => if String.eqb n EmptyString then old else _merge_tree_structures old n
  | None => old
  end.

(** Entries of paths that the new result has a snippet group for go. *)
Definition drop_extracted (skipped : list skipped_entry)
    (new_groups : option (list snippet_group)) : list skipped_entry :=
  match new_groups with
  | Some groups =>
      let extracted_files : gset string := list_to_set (sg_file_path <$> groups) in
      filter (fun s => sk_path s ∉ extracted_files) skipped
  | None => skipped
  end.

(** New entries are added but for the paths recorded before the loop. *)
Definition add_skipped (skipped : list skipped_entry)
    (new_skipped : option (list skipped_entry)) : list skipped_entry :=
  match new_skipped with
  | Some news =>
      let existing_skipped_paths : gset string := list_to_set (sk_path <$> skipped) in
      skipped ++ filter (fun s => sk_path s ∉ existing_skipped_paths) news
  | None => skipped
  end.

(** [for lang, count in new.items(): merged[lang] = merged.get(lang, 0) + count] *)
Definition add_languages (old new : gmap string nat) : gmap string nat :=
  foldl (fun m '(lang, count) => <[lang := default 0 (m !! lang) + count]> m)
        old (map_to_list new).

(** The merge of a parsed document with a new result.  The copies that the
    method takes are shallow and it appends in place; what is modelled is the
    dictionary it returns. *)
Definition merge_into (existing : snapshot) (new_data : partial_result) : snapshot :=
  let '(core, other) :=
    match pr_files new_data with
    | Some new_files => merge_files (files_core existing) (files_other existing) new_files
    | None => (files_core existing, files_other existing)
    end in
  let merged_snippets :=
    match pr_snippets new_data with
    | Some new_groups => merge_snippets (snippets existing) new_groups
    | None => snippets existing
    end in
  let merged_skipped :=
    add_skipped (drop_extracted (skipped_files existing) (pr_snippets new_data))
                (pr_skipped_files new_data) in
  let merged_stats :=
    match pr_stats new_data with
    | Some new_stats =>
        mk_stats (length core + length other + length merged_snippets)
                 (total_lines (snap_stats existing) + total_lines new_stats)
                 (add_languages (languages (snap_stats existing)) (languages new_stats))
    | None => snap_stats existing
    end in
  mk_snapshot (header existing) core other merged_snippets
              (merge_structure (structure existing) (pr_structure new_data))
              merged_stats merged_skipped.

Inductive merge_result :=
| Unmerged (new_data : partial_result)   (* [if not existing: return new_data] *)
| Merged (merged : snapshot).

Definition merge_markdown_data (existing : option snapshot) (new_data : partial_result)
  : merge_result :=
  match existing with
  | None => Unmerged new_data
  | Some existing => Merged (merge_into existing new_data)
  end.

End Methods.

End Collector.

(** ** A small world for the examples *)

Module Example.

Import Collector.

(** The text from the last dot on, as [Path.suffix] gives it for a plain
    file name. *)
Fixpoint dot_suffix (p : string) : string :=
  match p with
  | EmptyString => EmptyString
  | String c r =>
      match dot_suffix r with
      | EmptyString => if Ascii.eqb c "." then p else EmptyString
      | s => s
      end
  end.

Definition text (lines : list string) : string := Py.join newline lines.

Definition calc_py : string :=
  text [ "import os";
         "";
         "def calculate_total(items):";
         "    total = 0";
         "    for i in items:";
         "        total += i";
         "";
         "    return total";
         "";
         "x = 2" ].

Definition files (p : string) : fs_node :=
  if String.eqb p "calc.py" then RegularFile (mk_file_data 120 (Some calc_py) (Some 10%nat))
  else if String.eqb p "big.c" then RegularFile (mk_file_data 600000 (Some "int x;") (Some 1%nat))
  else if String.eqb p "main.c" then
    RegularFile (mk_file_data 40 (Some "int main(){ return 0; }") (Some 1%nat))
  else if String.eqb p "abc.txt" then
    RegularFile (mk_file_data 5 (Some (text ["a"; "b"; "c"])) (Some 3%nat))
  else if String.eqb p "f.py" then
    RegularFile (mk_file_data 30 (Some (text ["def f():"; "    return 1"; "x = 2"])) (Some 3%nat))
  else if String.eqb p "src" then Directory
  else Absent.

(** Paths are already relative to the project and resolve to themselves. *)
Definition the_world : world :=
  mk_world files (fun p => p) (fun p => p) dot_suffix (fun p => p)
           (fun content _ => content) (Py.join newline).

Definition plain_collector : CodeCollector := mk_collector [] 500 CleanNone true true.

Definition named (ty name : string) : range_spec := mk_range ty None None (Some name).
Definition lines_range (start end_ : Z) : range_spec :=
  mk_range "lines" (Some start) (Some end_) None.

(** A document that holds [main.c] once, as parsing it back gives it. *)
Definition main_c_parsed : file_info :=
  mk_file "main.c" "int main(){ return 0; }" "c" None None.

Definition old_document : snapshot :=
  mk_snapshot "# Project: demo" [] [main_c_parsed] [] "main.c"
    (derived_stats the_world [main_c_parsed] []) [].

End Example.

Import Cleaner.

(** ** Character classes used in the statements *)

Definition is_quote (c : ascii) : bool := Ascii.eqb c dquote || Ascii.eqb c squote.
Definition is_brace (c : ascii) : bool := Ascii.eqb c "{" || Ascii.eqb c "}".
Definition is_plain (c : ascii) : bool := negb (is_quote c) && negb (is_brace c).

Fixpoint string_forall (p : ascii -> bool) (s : string) : bool :=
  match s with
  | EmptyString => true
  | String c r => p c && string_forall p r
  end.

Fixpoint count_char (a : ascii) (s : string) : Z :=
  match s with
  | EmptyString => 0
  | String c r => (if Ascii.eqb c a then 1 else 0) + count_char a r
  end.

(** The character before position [length s] when [prev] precedes [s]. *)
Fixpoint last_char (prev : option ascii) (s : string) : option ascii :=
  match s with
  | EmptyString => prev
  | String c r => last_char (Some c) r
  end.

Definition pieces_of (s : string) : list string := str1 <$> list_ascii_of_string s.

(** ** Bodies *)

(** [balanced_from d b]: read from relative depth [d], the braces of [b]
    never close more than was opened and end at relative depth 0. *)
Fixpoint balanced_from (d : Z) (b : string) : bool :=
  match b with
  | EmptyString => d =? 0
  | String c r =>
      if Ascii.eqb c "{" then balanced_from (d + 1) r
      else if Ascii.eqb c "}" then (1 <=? d) && balanced_from (d - 1) r
      else balanced_from d r
  end.

(** [top_level_content d b]: some character of [b] other than a brace sits
    at relative depth 0, i.e. directly in the body. *)
Fixpoint top_level_content (d : Z) (b : string) : bool :=
  match b with
  | EmptyString => false
  | String c r =>
      if Ascii.eqb c "{" then top_level_content (d + 1) r
      else if Ascii.eqb c "}" then top_level_content (d - 1) r
      else (d =? 0) || top_level_content d r
  end.

Definition no_quote (c : ascii) : bool := negb (is_quote c).

(** ** Skeletonizing a skeleton *)

(** The counter stays at or above 0 on the whole of [content]. *)
Fixpoint never_negative (prev : option ascii) (st : scan_state) (content : string)
  : bool :=
  match content with
  | EmptyString => true
  | String c rest =>
      (0 <=? brace_depth (scan_step prev st c))
      && never_negative (Some c) (scan_step prev st c) rest
  end.

(** States in which every character is copied to the output. *)
Definition copying (st : scan_state) : bool :=
  in_string st || in_char st || (brace_depth st =? 0).

(** [sim prev1 st1 prev2 st2]: the first pass is at [st1] and the second pass
    has read exactly what the first has emitted so far. *)
Record sim (prev1 : option ascii) (st1 : scan_state)
           (prev2 : option ascii) (st2 : scan_state) : Prop := mk_sim {
  sim_out : output st2 = output st1;
  sim_str : in_string st2 = in_string st1;
  sim_chr : in_char st2 = in_char st1;
  sim_nonneg : 0 <= brace_depth st1;
  sim_depth : brace_depth st2 = Z.min (brace_depth st1) 1;
  sim_esc2 : unescaped prev2 = false -> unescaped prev1 = false /\ copying st1 = true;
  sim_esc1 : unescaped prev1 = false -> copying st1 = true -> unescaped prev2 = false
}.

(** ** Further notions on the skeletonizers *)

(** The counter is 0 after every character of [content]: no brace is read
    outside a literal. *)
Fixpoint stays_at_zero (prev : option ascii) (st : scan_state) (content : string)
  : bool :=
  match content with
  | EmptyString => true
  | String c rest =>
      (brace_depth (scan_step prev st c) =? 0)
      && stays_at_zero (Some c) (scan_step prev st c) rest
  end.

(** [never_closes d b]: read from relative depth [d], the braces of [b]
    never close more than was opened. *)
Fixpoint never_closes (d : Z) (b : string) : bool :=
  match b with
  | EmptyString => true
  | String c r =>
      if Ascii.eqb c "{" then never_closes (d + 1) r
      else if Ascii.eqb c "}" then (1 <=? d) && never_closes (d - 1) r
      else never_closes d r
  end.



Import Collector.

(** ** Notions used in the statements on the collector *)

(** The lines numbered [a] to [b] of a file, counted from 1, both ends
    included. *)
Definition lines_between (lines : list string) (a b : Z) : list string :=
  take (Z.to_nat (b - a + 1)) (drop (Z.to_nat (a - 1)) lines).

(** The first and the last line, counted from 1, that a lines spec selects
    in a file of [n] lines: [start >= 1] and [end >= 0] are taken as they
    are ([end] cut at [n]); a smaller [start] or a negative [end] is counted
    back from the end of the file, as the list slice does with the negative
    index it is handed. *)
Definition range_first (n start : Z) : Z :=
  if (1 <=? start)%Z then start else Z.max (start + n) 1.

Definition range_last (n end_ : Z) : Z :=
  if (0 <=? end_)%Z then Z.min end_ n else Z.max (end_ + n) 0.

(** The lines of the target of [extract_snippets], when it can be read. *)
Definition target_lines (w : world) (file_path : string) : list string :=
  match fs w (resolve_path w file_path) with
  | RegularFile f => from_option Py.splitlines [] (decoded f)
  | _ => []
  end.

Definition is_regular (n : fs_node) : Prop :=
  match n with RegularFile _ => True | _ => False end.

(** A result as [batch_import] or [extract_snippets] returns it. *)
Definition produced (R : partial_result) : Prop :=
  (exists w self file_paths, R = batch_import w self file_paths)
  \/ (exists w self file_path ranges, extract_snippets w self file_path ranges = Some R).

(** The two shapes of such a result: no snippet groups at all, or one group
    and no skipped list. *)
Definition single_pass (R : partial_result) : Prop :=
  pr_snippets R = None
  \/ (exists g, pr_snippets R = Some [g] /\ pr_skipped_files R = None).

(** ** Further notions on the collector *)

(** A path that [batch_import] turns into a file record: a regular file
    within the size limit that decodes and is not filtered as junk. *)
Definition accepted (w : world) (self : CodeCollector) (p : string) : bool :=
  match fs w (resolve_path w p) with
  | RegularFile f =>
      negb (1024 * max_file_size_kb self <? st_size f)%Z
      && bool_decide (is_Some (decoded f))
      && negb (remove_junk self && HAS_CODE_CLEANER self
               && is_junk_filename (relative_to_project w (resolve_path w p)))
  | _ => false
  end.

(** A path that [batch_import] records as skipped: a regular file that is
    not accepted. *)
Definition rejected (w : world) (self : CodeCollector) (p : string) : bool :=
  match fs w (resolve_path w p) with
  | RegularFile _ => negb (accepted w self p)
  | _ => false
  end.

(** The new files of a merge: those whose path is in neither bucket of the
    old document. *)
Definition fresh_files (S : snapshot) (new_files : list file_info) : list file_info :=
  filter (fun f => fi_path f ∉ fi_path <$> (files_core S ++ files_other S)) new_files.

(** ** Basic facts on the scanner *)

Lemma string_app_assoc (a b c : string) : (a +:+ b) +:+ c = a +:+ (b +:+ c).
Proof. induction a as [|x a IH]; simpl; [reflexivity | now rewrite IH]. Qed.

Lemma string_app_empty_r (a : string) : a +:+ EmptyString = a.
Proof. induction a as [|x a IH]; simpl; [reflexivity | now rewrite IH]. Qed.

Lemma join_pieces_app a b : join_pieces (a ++ b) = join_pieces a +:+ join_pieces b.
Proof.
  induction a as [|x a IH]; [reflexivity|].
  change (x +:+ join_pieces (a ++ b) = (x +:+ join_pieces a) +:+ join_pieces b).
  now rewrite IH, string_app_assoc.
Qed.

Lemma join_pieces_of s : join_pieces (pieces_of s) = s.
Proof.
  induction s as [|c s IH]; [reflexivity|].
  change (String c (join_pieces (pieces_of s)) = String c s). now rewrite IH.
Qed.

Lemma scan_app s1 s2 prev st :
  scan prev st (s1 +:+ s2) = scan (last_char prev s1) (scan prev st s1) s2.
Proof. revert prev st; induction s1 as [|c s1 IH]; intros; simpl; [reflexivity | apply IH]. Qed.

Lemma string_forall_app p s1 s2 :
  string_forall p (s1 +:+ s2) = string_forall p s1 && string_forall p s2.
Proof. induction s1 as [|c s1 IH]; simpl; [reflexivity|]. rewrite IH. now destruct (p c). Qed.

(** A plain character at depth 0 outside literals is copied. *)
Lemma scan_step_plain0 prev out c :
  is_plain c = true ->
  scan_step prev (mk_scan out 0 false false) c = mk_scan (out ++ [str1 c]) 0 false false.
Proof.
  unfold is_plain, is_quote, is_brace, scan_step; simpl.
  destruct (Ascii.eqb c dquote), (Ascii.eqb c squote),
    (Ascii.eqb c "{"), (Ascii.eqb c "}"); simpl; intros H; try discriminate H; reflexivity.
Qed.

Lemma scan_plain0 s prev out :
  string_forall is_plain s = true ->
  scan prev (mk_scan out 0 false false) s = mk_scan (out ++ pieces_of s) 0 false false.
Proof.
  revert prev out; induction s as [|c s IH]; simpl; intros prev out H.
  - now rewrite app_nil_r.
  - apply andb_prop in H as [Hc Hs]. rewrite scan_step_plain0 by assumption.
    rewrite IH by assumption. unfold pieces_of; simpl. now rewrite <- app_assoc.
Qed.

(** Below depth 0 and outside literals nothing but a quote is emitted, and
    only [{] raises the counter. *)
Lemma scan_step_negative prev out d c :
  d < 0 -> is_quote c = false -> Ascii.eqb c "{" = false ->
  scan_step prev (mk_scan out d false false) c
  = mk_scan out (d - (if Ascii.eqb c "}" then 1 else 0)) false false.
Proof.
  unfold is_quote, scan_step; simpl. intros Hd Hq Ho.
  apply orb_false_elim in Hq as [-> ->]. rewrite Ho. simpl.
  destruct (Ascii.eqb c "}").
  - destruct (Z.eqb_spec (d - 1) 0); [lia | reflexivity].
  - destruct (Z.eqb_spec d 0); [lia|]. destruct (Z.eqb_spec d 1); [lia|].
    simpl. f_equal; lia.
Qed.

Lemma scan_negative s prev out d :
  d < 0 ->
  string_forall (fun c => negb (is_quote c) && negb (Ascii.eqb c "{")) s = true ->
  scan prev (mk_scan out d false false) s
  = mk_scan out (d - count_char "}" s) false false.
Proof.
  revert prev d; induction s as [|c s IH]; simpl; intros prev d Hd H.
  - f_equal; lia.
  - apply andb_prop in H as [Hc Hs]. apply andb_prop in Hc as [Hq Ho].
    apply negb_true_iff in Hq, Ho.
    rewrite scan_step_negative by assumption.
    assert (0 <= count_char "}" s).
    { clear. induction s as [|x s IH]; simpl; [lia|]. destruct (Ascii.eqb x "}"); lia. }
    rewrite IH by (try assumption; destruct (Ascii.eqb c "}"); lia).
    f_equal. destruct (Ascii.eqb c "}"); lia.
Qed.

(** C3 (as the code has it): the depth counter is a plain signed integer.
    An unmatched closing brace after depth-0 text [pre] is not emitted and
    takes the counter to -1; every later character outside a literal is then
    dropped, so with no opening brace and no quote in [t] the output is just
    [pre] and the counter ends at [-1 - (number of closing braces of t)]. *)
Theorem excess_close_drops_rest (pre t : string) :
  string_forall is_plain pre = true ->
  string_forall (fun c => negb (is_quote c) && negb (Ascii.eqb c "{")) t = true ->
  brace_depth (scan None init_scan (pre +:+ "}" +:+ t)) = -1 - count_char "}" t
  /\ hollow_out_function_bodies (pre +:+ "}" +:+ t) = pre.
Proof.
  intros Hpre Ht. unfold hollow_out_function_bodies, init_scan.
  rewrite scan_app, scan_plain0 by assumption. simpl.
  assert (Hstep : scan_step (last_char None pre) (mk_scan (pieces_of pre) 0 false false) "}"
                  = mk_scan (pieces_of pre) (-1) false false) by reflexivity.
  rewrite Hstep, scan_negative by (try assumption; lia). simpl.
  split; [reflexivity | apply join_pieces_of].
Qed.

Lemma excess_close_drops_rest_witness :
  brace_depth (scan None init_scan ("int y;" +:+ "}" +:+ " int x; }")) = -1 - count_char "}" " int x; }"
  /\ hollow_out_function_bodies ("int y;" +:+ "}" +:+ " int x; }") = "int y;".
Proof. apply (excess_close_drops_rest "int y;" " int x; }"); reflexivity. Defined.

(** C3 as stated fails: on ["} int x;"] the counter drops to -1 and neither
    the brace nor the text after it reaches the output. *)
Lemma excess_close_counterexample :
  brace_depth (scan None init_scan "}") = -1
  /\ hollow_out_function_bodies "} int x;" = EmptyString
  /\ hollow_out_function_bodies "} int x;" <> "} int x;".
Proof. repeat split; discriminate. Qed.

Lemma last_is_open_snoc o x : last_is_open (o ++ [x]) = String.eqb x "{".
Proof. unfold last_is_open. now rewrite last_snoc. Qed.

(** Inside a body (absolute depth [1 + d]) a quote-free text emits at most
    the placeholder, and only when the last piece is the opening brace. *)
Lemma scan_body b : forall prev o d,
  0 <= d -> string_forall no_quote b = true -> balanced_from d b = true ->
  scan prev (mk_scan o (1 + d) false false) b
  = mk_scan (if last_is_open o && top_level_content d b then o ++ [placeholder] else o)
            1 false false.
Proof.
  induction b as [|c b IH]; simpl; intros prev o d Hd Hq Hb.
  - apply Z.eqb_eq in Hb. subst d. now rewrite andb_false_r.
  - apply andb_prop in Hq as [Hc Hq]. unfold no_quote, is_quote in Hc.
    apply negb_true_iff, orb_false_elim in Hc as [Hdq Hsq].
    unfold scan_step; simpl. rewrite Hdq, Hsq; simpl.
    destruct (Z.eqb_spec (1 + d) 0) as [|_]; [lia|].
    destruct (Ascii.eqb c "{").
    { replace (1 + d + 1) with (1 + (d + 1)) by lia. apply IH; [lia | assumption..]. }
    destruct (Ascii.eqb c "}").
    { apply andb_prop in Hb as [Hd1 Hb]. apply Z.leb_le in Hd1.
      destruct (Z.eqb_spec (1 + d - 1) 0) as [|_]; [lia|].
      replace (1 + d - 1) with (1 + (d - 1)) by lia. apply IH; [lia | assumption..]. }
    destruct (Z.eqb_spec d 0) as [->|Hne].
    + simpl. destruct (last_is_open o) eqn:Ho; simpl.
      * unfold emit; simpl. rewrite (IH _ _ 0) by (try assumption; lia).
        now rewrite last_is_open_snoc.
      * rewrite (IH _ _ 0) by (try assumption; lia). now rewrite Ho.
    + destruct (Z.eqb_spec (1 + d) 1) as [|_]; [lia|]. simpl. now apply IH.
Qed.





Lemma app1 c (rest : string) : String c EmptyString +:+ rest = String c rest.
Proof. reflexivity. Qed.


Lemma join_single (p : string) : join_pieces [p] = p.
Proof. unfold join_pieces; simpl. apply string_app_empty_r. Qed.









Lemma scan_cons prev st c r :
  scan prev st (String c r) = scan (Some c) (scan_step prev st c) r.
Proof. reflexivity. Qed.

Lemma scan_placeholder prev o :
  last_is_open o = true ->
  scan prev (mk_scan o 1 false false) placeholder = mk_scan (o ++ [placeholder]) 1 false false.
Proof.
  intros Ho. unfold placeholder at 1. rewrite scan_cons.
  assert (Hstep : scan_step prev (mk_scan o 1 false false) " "
                  = mk_scan (o ++ [placeholder]) (1 + 0) false false).
  { unfold scan_step. cbn [output brace_depth in_string in_char].
    rewrite Ho. reflexivity. }
  rewrite Hstep. rewrite scan_body; [|lia|reflexivity..].
  rewrite last_is_open_snoc. reflexivity.
Qed.

Lemma unescaped_quote c : is_quote c = true -> unescaped (Some c) = true.
Proof.
  unfold is_quote, unescaped. intros H. apply orb_prop in H as [H|H];
    apply Ascii.eqb_eq in H; subst c; reflexivity.
Qed.

Lemma scan_single prev st c : scan prev st (str1 c) = scan_step prev st c.
Proof. reflexivity. Qed.

Lemma sim_unescaped prev1 st1 prev2 st2 :
  sim prev1 st1 prev2 st2 -> unescaped prev1 = true -> unescaped prev2 = true.
Proof.
  intros H U1. destruct (unescaped prev2) eqn:U2; [reflexivity|].
  destruct (sim_esc2 _ _ _ _ H U2) as [U _]. congruence.
Qed.

Lemma sim_not_copying prev1 st1 prev2 st2 :
  sim prev1 st1 prev2 st2 -> copying st1 = false -> unescaped prev2 = true.
Proof.
  intros H C. destruct (unescaped prev2) eqn:U2; [reflexivity|].
  destruct (sim_esc2 _ _ _ _ H U2) as [_ C']. congruence.
Qed.

(** The second pass copies a character that the first pass copied, with the
    same effect on the literal flags. *)
Lemma sim_copy_literal prev1 o d s c prev2 d2 ch :
  sim prev1 (mk_scan o d s c) prev2 (mk_scan o d2 s c) ->
  s || c = true ->
  (is_quote ch = true -> unescaped prev1 = false) ->
  sim (Some ch) (mk_scan (o ++ [str1 ch]) d s c)
      (Some ch) (scan_step prev2 (mk_scan o d2 s c) ch).
Proof.
  intros H L Q.
  assert (Hstep : scan_step prev2 (mk_scan o d2 s c) ch = mk_scan (o ++ [str1 ch]) d2 s c).
  { unfold scan_step; cbn [output brace_depth in_string in_char].
    destruct (is_quote ch) eqn:Eq.
    - assert (U2 : unescaped prev2 = false).
      { apply (sim_esc1 _ _ _ _ H); [auto|]. unfold copying; simpl. now rewrite L. }
      rewrite U2, !andb_false_r, L. reflexivity.
    - unfold is_quote in Eq. apply orb_false_elim in Eq as [-> ->]. simpl. now rewrite L. }
  rewrite Hstep. destruct H as [_ _ _ Hn Hd _ _]. simpl in *.
  constructor; simpl; auto.
  intros U. split; [exact U|]. unfold copying; simpl. now rewrite L.
Qed.

Ltac sim_fields :=
  constructor; cbn [output brace_depth in_string in_char last_char join_pieces foldr];
  [ reflexivity || auto | reflexivity | reflexivity | lia | lia | | ].

(** One step of the first pass, followed by the second pass reading what
    that step emitted, keeps the two passes in step. *)
Lemma sim_step prev1 st1 prev2 st2 ch :
  sim prev1 st1 prev2 st2 ->
  0 <= brace_depth (scan_step prev1 st1 ch) ->
  exists ps, output (scan_step prev1 st1 ch) = (output st1 ++ ps)%list /\
    sim (Some ch) (scan_step prev1 st1 ch)
        (last_char prev2 (join_pieces ps)) (scan prev2 st2 (join_pieces ps)).
Proof.
  destruct st1 as [o d s c], st2 as [o2 d2 s2 c2]. intros H Hn'.
  pose proof (sim_out _ _ _ _ H) as E1. pose proof (sim_str _ _ _ _ H) as E2.
  pose proof (sim_chr _ _ _ _ H) as E3. simpl in E1, E2, E3. subst o2 s2 c2.
  pose proof (sim_nonneg _ _ _ _ H) as Hn. pose proof (sim_depth _ _ _ _ H) as Hd.
  simpl in Hn, Hd.
  unfold scan_step in Hn' |- *. cbn [output brace_depth in_string in_char] in Hn' |- *.
  revert Hn'.
  destruct (Ascii.eqb ch dquote && unescaped prev1) eqn:T1.
  { intros _. apply andb_prop in T1 as [Eq U1]. apply Ascii.eqb_eq in Eq; subst ch.
    exists [str1 dquote]. split; [reflexivity|]. rewrite join_single, scan_single.
    unfold scan_step; cbn [output brace_depth in_string in_char].
    rewrite (sim_unescaped _ _ _ _ H U1).
    change (Ascii.eqb dquote dquote && true) with true. cbv iota.
    sim_fields; discriminate. }
  destruct (Ascii.eqb ch squote && unescaped prev1) eqn:T2.
  { intros _. apply andb_prop in T2 as [Eq U1]. apply Ascii.eqb_eq in Eq; subst ch.
    exists [str1 squote]. split; [reflexivity|]. rewrite join_single, scan_single.
    unfold scan_step; cbn [output brace_depth in_string in_char].
    rewrite (sim_unescaped _ _ _ _ H U1).
    change (Ascii.eqb squote dquote && true) with false.
    change (Ascii.eqb squote squote && true) with true. cbv iota.
    sim_fields; discriminate. }
  assert (Q : is_quote ch = true -> unescaped prev1 = false).
  { unfold is_quote. intros Q. apply orb_prop in Q as [Q|Q]; rewrite Q in *; assumption. }
  destruct (s || c) eqn:L.
  { intros _. exists [str1 ch]. split; [reflexivity|]. rewrite join_single, scan_single.
    apply (sim_copy_literal prev1); assumption. }
  apply orb_false_elim in L as [-> ->].
  destruct (Ascii.eqb ch "{") eqn:Eo.
  { apply Ascii.eqb_eq in Eo; subst ch. destruct (Z.eqb_spec d 0) as [->|Hd0]; intros _.
    - exists ["{"]. split; [reflexivity|]. rewrite join_single.
      change (scan prev2 (mk_scan o d2 false false) "{")
        with (scan_step prev2 (mk_scan o d2 false false) "{").
      unfold scan_step; cbn [output brace_depth in_string in_char].
      change (Ascii.eqb "{" dquote) with false. change (Ascii.eqb "{" squote) with false.
      change (Ascii.eqb "{" "{") with true. cbn [andb orb]. cbv iota.
      replace d2 with 0 by lia. cbn [Z.eqb]. cbv iota.
      sim_fields; discriminate.
    - exists []. split; [now rewrite app_nil_r|].
      cbn [join_pieces foldr scan last_char].
      sim_fields.
      + intros U2. destruct (sim_esc2 _ _ _ _ H U2) as [_ C]. unfold copying in C; simpl in C.
        apply Z.eqb_eq in C. lia.
      + discriminate. }
  destruct (Ascii.eqb ch "}") eqn:Ec.
  { apply Ascii.eqb_eq in Ec; subst ch.
    destruct (Z.eqb_spec (d - 1) 0) as [Hd1|Hd1];
      cbn [output brace_depth in_string in_char]; intros Hn'.
    - exists ["}"]. split; [reflexivity|]. rewrite join_single.
      change (scan prev2 (mk_scan o d2 false false) "}")
        with (scan_step prev2 (mk_scan o d2 false false) "}").
      unfold scan_step; cbn [output brace_depth in_string in_char].
      change (Ascii.eqb "}" dquote) with false. change (Ascii.eqb "}" squote) with false.
      change (Ascii.eqb "}" "{") with false. change (Ascii.eqb "}" "}") with true.
      cbn [andb orb]. cbv iota.
      replace d2 with 1 by lia. cbn [Z.sub Z.add Z.opp Z.pos_sub Z.eqb]. cbv iota.
      rewrite Hd1. sim_fields; discriminate.
    - exists []. split; [now rewrite app_nil_r|].
      cbn [join_pieces foldr scan last_char].
      sim_fields.
      + intros U2. destruct (sim_esc2 _ _ _ _ H U2) as [_ C]. unfold copying in C; simpl in C.
        apply Z.eqb_eq in C. lia.
      + discriminate. }
  destruct (Z.eqb_spec d 0) as [->|Hd0].
  { intros _. exists [str1 ch]. split; [reflexivity|]. rewrite join_single, scan_single.
    assert (Hstep : scan_step prev2 (mk_scan o d2 false false) ch
                    = mk_scan (o ++ [str1 ch]) 0 false false).
    { unfold scan_step; cbn [output brace_depth in_string in_char].
      replace d2 with 0 by lia. rewrite Eo, Ec. cbn [orb Z.eqb]. cbv iota.
      destruct (is_quote ch) eqn:Eq.
      - assert (U2 : unescaped prev2 = false).
        { apply (sim_esc1 _ _ _ _ H); [auto|reflexivity]. }
        rewrite U2, !andb_false_r. reflexivity.
      - unfold is_quote in Eq. apply orb_false_elim in Eq as [-> ->]. reflexivity. }
    rewrite Hstep. unfold emit; cbn [output brace_depth in_string in_char].
    sim_fields.
    - intros U. split; [exact U | reflexivity].
    - auto. }
  assert (NC : copying (mk_scan o d false false) = false).
  { unfold copying; simpl. now apply Z.eqb_neq. }
  destruct ((d =? 1) && last_is_open o) eqn:P.
  { intros _. apply andb_prop in P as [Hd1 Ho]. apply Z.eqb_eq in Hd1. subst d.
    exists [placeholder]. split; [reflexivity|]. rewrite join_single.
    replace d2 with 1 by lia. rewrite scan_placeholder by assumption.
    unfold emit; cbn [output brace_depth in_string in_char].
    sim_fields; [discriminate|]. intros _ C. discriminate C. }
  intros _. exists []. split; [now rewrite app_nil_r|].
  cbn [join_pieces foldr scan last_char].
  sim_fields.
  - intros U2. pose proof (sim_not_copying _ _ _ _ H NC). congruence.
  - intros _ C. congruence.
Qed.

Lemma sim_scan content : forall prev1 st1 prev2 st2,
  sim prev1 st1 prev2 st2 ->
  never_negative prev1 st1 content = true ->
  exists ps, output (scan prev1 st1 content) = (output st1 ++ ps)%list /\
    output (scan prev2 st2 (join_pieces ps)) = output (scan prev1 st1 content).
Proof.
  induction content as [|ch content IH]; intros prev1 st1 prev2 st2 H N.
  - exists []. split; [now rewrite app_nil_r | apply (sim_out _ _ _ _ H)].
  - cbn [never_negative] in N. apply andb_prop in N as [N0 N].
    apply Z.leb_le in N0.
    destruct (sim_step _ _ _ _ ch H N0) as (ps1 & E1 & H1).
    destruct (IH _ _ _ _ H1 N) as (ps2 & E2 & E3).
    exists (ps1 ++ ps2). cbn [scan]. split.
    + now rewrite E2, E1, app_assoc.
    + now rewrite join_pieces_app, scan_app.
Qed.

Lemma sim_init : sim None init_scan None init_scan.
Proof. constructor; simpl; auto; try lia; discriminate. Qed.

(** C8 (as the code has it): skeletonizing is idempotent on every text on
    which the depth counter never goes below 0, that is, with no closing
    brace outside a literal while the counter is at 0. *)
Theorem hollow_out_idempotent (x : string) :
  never_negative None init_scan x = true ->
  hollow_out_function_bodies (hollow_out_function_bodies x)
  = hollow_out_function_bodies x.
Proof.
  intros N. destruct (sim_scan x _ _ _ _ sim_init N) as (ps & E1 & E2).
  unfold hollow_out_function_bodies. rewrite E1. cbn [output init_scan app].
  rewrite E2, E1. reflexivity.
Qed.

Lemma hollow_out_idempotent_witness :
  hollow_out_function_bodies
    (hollow_out_function_bodies "int add(int a,int b){ if (a) { return a+b; } return 0; }")
  = hollow_out_function_bodies "int add(int a,int b){ if (a) { return a+b; } return 0; }".
Proof. apply hollow_out_idempotent. reflexivity. Defined.

(** C8 as stated fails: after a closing brace at depth 0 the quote that
    follows a dropped brace lands behind a backslash in the output, so the
    second pass reads it as escaped and sees an opening brace that the first
    pass took for literal text. *)
Lemma hollow_out_not_idempotent :
  let x := "\}" +:+ String dquote "{x" in
  hollow_out_function_bodies x = "\" +:+ String dquote "{x"
  /\ hollow_out_function_bodies (hollow_out_function_bodies x)
     = "\" +:+ String dquote "{" +:+ placeholder
  /\ hollow_out_function_bodies (hollow_out_function_bodies x)
     <> hollow_out_function_bodies x.
Proof. repeat split; discriminate. Qed.


(** ** More on the brace skeletonizer *)

Lemma scan_step_at_zero prev o a b c :
  brace_depth (scan_step prev (mk_scan o 0 a b) c) = 0 ->
  exists a' b', scan_step prev (mk_scan o 0 a b) c = mk_scan (o ++ [str1 c]) 0 a' b'.
Proof.
  unfold scan_step. cbn [output brace_depth in_string in_char].
  destruct (Ascii.eqb c dquote && unescaped prev); [eauto|].
  destruct (Ascii.eqb c squote && unescaped prev); [eauto|].
  destruct (a || b); [unfold emit; simpl; eauto|].
  destruct (Ascii.eqb c "{"); [simpl; lia|].
  destruct (Ascii.eqb c "}"); [simpl; lia|].
  unfold emit; simpl; eauto.
Qed.

Lemma scan_at_zero s : forall prev o a b,
  stays_at_zero prev (mk_scan o 0 a b) s = true ->
  output (scan prev (mk_scan o 0 a b) s) = o ++ pieces_of s.
Proof.
  induction s as [|c s IH]; intros prev o a b H.
  - simpl. now rewrite app_nil_r.
  - cbn [stays_at_zero] in H. apply andb_prop in H as [H0 H].
    apply Z.eqb_eq in H0. destruct (scan_step_at_zero _ _ _ _ _ H0) as (a' & b' & E).
    cbn [scan]. rewrite E in H |- *. rewrite IH by exact H.
    unfold pieces_of. simpl. now rewrite <- app_assoc.
Qed.

(** A text in which every brace lies inside a string or character literal
    (the depth counter never leaves 0) comes back unchanged. *)
Theorem hollow_out_without_bodies (content : string) :
  stays_at_zero None init_scan content = true ->
  hollow_out_function_bodies content = content.
Proof.
  intros H. unfold hollow_out_function_bodies, init_scan in *.
  rewrite scan_at_zero by exact H. apply join_pieces_of.
Qed.

Lemma hollow_out_without_bodies_witness :
  hollow_out_function_bodies ("x = " +:+ String dquote ("a{b}c" +:+ String dquote "; y = 2"))
  = "x = " +:+ String dquote ("a{b}c" +:+ String dquote "; y = 2").
Proof. apply hollow_out_without_bodies. reflexivity. Defined.

Lemma scan_step_no_brace prev o a b c :
  is_brace c = false -> brace_depth (scan_step prev (mk_scan o 0 a b) c) = 0.
Proof.
  unfold is_brace, scan_step. intros H. apply orb_false_elim in H as [-> ->].
  cbn [output brace_depth in_string in_char].
  destruct (Ascii.eqb c dquote && unescaped prev); [reflexivity|].
  destruct (Ascii.eqb c squote && unescaped prev); [reflexivity|].
  destruct (a || b); [reflexivity|]. reflexivity.
Qed.

Lemma no_brace_stays_at_zero s : forall prev o a b,
  string_forall (fun c => negb (is_brace c)) s = true ->
  stays_at_zero prev (mk_scan o 0 a b) s = true.
Proof.
  induction s as [|c s IH]; intros prev o a b H; [reflexivity|].
  simpl in H. apply andb_prop in H as [Hc Hs]. apply negb_true_iff in Hc.
  cbn [stays_at_zero]. pose proof (scan_step_no_brace prev o a b c Hc) as H0.
  rewrite H0. destruct (scan_step_at_zero _ _ _ _ _ H0) as (a' & b' & ->).
  simpl. now apply IH.
Qed.

(** A text without any brace comes back unchanged, whatever quotes and
    backslashes it holds. *)
Theorem hollow_out_brace_free (content : string) :
  string_forall (fun c => negb (is_brace c)) content = true ->
  hollow_out_function_bodies content = content.
Proof.
  intros H. unfold hollow_out_function_bodies, init_scan.
  rewrite scan_at_zero by (now apply no_brace_stays_at_zero). apply join_pieces_of.
Qed.

Lemma hollow_out_brace_free_witness :
  hollow_out_function_bodies ("it's \ " +:+ String dquote "unbalanced")
  = "it's \ " +:+ String dquote "unbalanced".
Proof. apply hollow_out_brace_free. reflexivity. Defined.

(** A body that is never closed: the placeholder at most, and the counter
    stays above 0. *)
Lemma scan_open_body b : forall prev o d,
  0 <= d -> string_forall no_quote b = true -> never_closes d b = true ->
  exists d',
    0 <= d'
    /\ scan prev (mk_scan o (1 + d) false false) b
       = mk_scan (if last_is_open o && top_level_content d b then o ++ [placeholder] else o)
                 (1 + d') false false.
Proof.
  induction b as [|c b IH]; simpl; intros prev o d Hd Hq Hb.
  - exists d. split; [assumption|]. now rewrite andb_false_r.
  - apply andb_prop in Hq as [Hc Hq]. unfold no_quote, is_quote in Hc.
    apply negb_true_iff, orb_false_elim in Hc as [Hdq Hsq].
    unfold scan_step; simpl. rewrite Hdq, Hsq; simpl.
    destruct (Z.eqb_spec (1 + d) 0) as [|_]; [lia|].
    destruct (Ascii.eqb c "{").
    { replace (1 + d + 1) with (1 + (d + 1)) by lia. apply IH; [lia | assumption..]. }
    destruct (Ascii.eqb c "}").
    { apply andb_prop in Hb as [Hd1 Hb]. apply Z.leb_le in Hd1.
      destruct (Z.eqb_spec (1 + d - 1) 0) as [|_]; [lia|].
      replace (1 + d - 1) with (1 + (d - 1)) by lia. apply IH; [lia | assumption..]. }
    destruct (Z.eqb_spec d 0) as [->|Hne].
    + simpl. destruct (last_is_open o) eqn:Ho; simpl.
      * unfold emit; simpl.
        destruct (IH (Some c) (o ++ [placeholder]) 0) as (d' & Hd' & E);
          [lia | assumption..|].
        exists d'. split; [assumption|]. rewrite E. now rewrite last_is_open_snoc.
      * destruct (IH (Some c) o 0) as (d' & Hd' & E); [lia | assumption..|].
        exists d'. split; [assumption|]. rewrite E. now rewrite Ho.
    + destruct (Z.eqb_spec (1 + d) 1) as [|_]; [lia|]. simpl. now apply IH.
Qed.

(** An opening brace at depth 0 that is never closed swallows the rest of
    the text: after the brace comes the placeholder at most (when the rest
    has a character directly in the body), and nothing else. *)
Theorem hollow_out_unclosed_body (pre b : string) :
  string_forall is_plain pre = true ->
  string_forall no_quote b = true ->
  never_closes 0 b = true ->
  hollow_out_function_bodies (pre +:+ "{" +:+ b)
  = pre +:+ "{" +:+ (if top_level_content 0 b then placeholder else EmptyString).
Proof.
  intros Hpre Hq Hb. unfold hollow_out_function_bodies, init_scan.
  rewrite scan_app, scan_plain0 by assumption. rewrite app1. cbn [scan app].
  change (scan_step (last_char None pre) (mk_scan (pieces_of pre) 0 false false) "{")
    with (mk_scan (pieces_of pre ++ ["{"]) (1 + 0) false false).
  destruct (scan_open_body b (Some "{"%char) (pieces_of pre ++ ["{"]) 0)
    as (d' & _ & E); [lia | assumption..|].
  rewrite E. rewrite last_is_open_snoc. simpl (String.eqb _ _ && _). simpl output.
  destruct (top_level_content 0 b);
    rewrite !join_pieces_app, !join_pieces_of; simpl;
    rewrite ?string_app_assoc, ?string_app_empty_r; reflexivity.
Qed.

Lemma hollow_out_unclosed_body_witness :
  hollow_out_function_bodies ("void f()" +:+ "{" +:+ " if (x) { y(); } z();")
  = "void f()" +:+ "{"
      +:+ (if top_level_content 0 " if (x) { y(); } z();" then placeholder else EmptyString).
Proof. apply hollow_out_unclosed_body; reflexivity. Defined.

(** ** The Python skeleton *)




(** Lines inside the body of a [def] are dropped whatever they are: after a
    [def] line at indent [n], lines that are blank or indented deeper than
    [n] leave the skeleton as it is. *)
Lemma skeleton_skips_body body : forall res n,
  Forall (fun l => Py.strip l = EmptyString \/ (n < indent_of l)%nat) body ->
  foldl skeleton_step (mk_skeleton res (Some n) []) body = mk_skeleton res (Some n) [].
Proof.
  induction body as [|l body IH]; intros res n H; [reflexivity|].
  inversion H as [|? ? Hl Hb]; subst. simpl.
  assert (E : skeleton_step (mk_skeleton res (Some n) []) l = mk_skeleton res (Some n) []).
  { unfold skeleton_step. simpl. destruct Hl as [->|Hl]; [reflexivity|].
    apply Nat.ltb_lt in Hl. rewrite Hl. now rewrite orb_true_r. }
  rewrite E. now apply IH.
Qed.

(** A function keeps its [def] line only: when the text is a [def] line
    followed by lines that are blank or indented deeper, its skeleton is the
    [def] line, nested definitions included in what is dropped. *)
Theorem python_skeleton_of_function (content decl : string) (body : list string) :
  Py.splitlines content = decl :: body ->
  is_def_line (Py.strip decl) = true ->
  Py.startswith (Py.strip decl) "@" = false ->
  Forall (fun l => Py.strip l = EmptyString \/ (indent_of decl < indent_of l)%nat) body ->
  _extract_python_skeleton content = decl.
Proof.
  intros Hlines Hdef Hdec Hbody. unfold _extract_python_skeleton. rewrite Hlines. simpl.
  assert (E : skeleton_step (mk_skeleton [] None []) decl
              = mk_skeleton [decl] (Some (indent_of decl)) []).
  { unfold skeleton_step. simpl. rewrite Hdec, Hdef. reflexivity. }
  rewrite E. now rewrite skeleton_skips_body.
Qed.

Lemma python_skeleton_of_function_witness :
  _extract_python_skeleton
    (Py.join (String "010" EmptyString)
       ["  def f(self):"; "      x = 1"; ""; "      def g(): pass"; "      return x"])
  = "  def f(self):".
Proof.
  apply (python_skeleton_of_function _ "  def f(self):"
           ["      x = 1"; ""; "      def g(): pass"; "      return x"]);
    [reflexivity | reflexivity | reflexivity |].
  repeat constructor; (left; reflexivity) || (right; vm_compute; lia).
Defined.

(** ** Junk file names *)

Lemma match_prefix_empty s : Re.match_prefix Re.Empty s = false.
Proof. induction s as [|a s IH]; [reflexivity | exact IH]. Qed.

Lemma match_prefix_cat_empty r s : Re.match_prefix (Re.Cat Re.Empty r) s = false.
Proof. induction s as [|a s IH]; [reflexivity | exact IH]. Qed.

Lemma match_prefix_alt s : forall r1 r2,
  Re.match_prefix (Re.Alt r1 r2) s = Re.match_prefix r1 s || Re.match_prefix r2 s.
Proof.
  induction s as [|a s IH]; intros r1 r2; simpl.
  - now rewrite !orb_false_r.
  - rewrite IH. destruct (Re.nullable r1), (Re.nullable r2); simpl;
      rewrite ?orb_true_r; try reflexivity.
Qed.

Lemma match_prefix_cat_eps r s :
  Re.match_prefix (Re.Cat Re.Eps r) s = Re.match_prefix r s.
Proof.
  destruct s as [|a s]; simpl; [reflexivity|].
  now rewrite match_prefix_alt, match_prefix_cat_empty.
Qed.

(** A literal pattern matches at the start of a text that begins with it. *)
Lemma match_prefix_lit s t : Re.match_prefix (Re.Lit s) (s +:+ t) = true.
Proof.
  induction s as [|c s IH]; simpl; [now destruct t|].
  unfold Re.Chr. simpl. rewrite Ascii.eqb_refl. now rewrite match_prefix_cat_eps.
Qed.

Lemma match_anywhere_app r a b :
  Re.match_prefix r b = true -> Re.match_anywhere r (a +:+ b) = true.
Proof.
  intros H. induction a as [|c a IH]; simpl.
  - destruct b; simpl in *; rewrite H; reflexivity.
  - rewrite IH. apply orb_true_r.
Qed.

Lemma lower_app a b : Py.lower (a +:+ b) = Py.lower a +:+ Py.lower b.
Proof. induction a as [|c a IH]; simpl; [reflexivity | now rewrite IH]. Qed.

(** A file name is junk as soon as it holds, anywhere and in any letter
    case, one of [system_], [stm32f4xx_hal_conf] or [FreeRTOSConfig]. *)
Theorem junk_by_substring (pre mid post : string) :
  Py.lower mid = "system_" \/ Py.lower mid = "stm32f4xx_hal_conf"
  \/ Py.lower mid = "freertosconfig" ->
  is_junk_filename (pre +:+ mid +:+ post) = true.
Proof.
  intros H. unfold is_junk_filename, base_patterns. rewrite !lower_app.
  cbn [existsb Re.search].
  destruct H as [-> | [-> | ->]].
  - rewrite (match_anywhere_app (Re.Lit "system_") (Py.lower pre))
      by apply match_prefix_lit.
    now rewrite ?orb_true_r.
  - rewrite (match_anywhere_app (Re.Lit "stm32f4xx_hal_conf") (Py.lower pre))
      by apply match_prefix_lit.
    now rewrite ?orb_true_r.
  - rewrite (match_anywhere_app (Re.Lit "freertosconfig") (Py.lower pre))
      by apply match_prefix_lit.
    now rewrite ?orb_true_r.
Qed.

Lemma junk_by_substring_witness :
  is_junk_filename ("lib/file_" +:+ "System_" +:+ "utils.c") = true.
Proof. apply junk_by_substring. left. reflexivity. Defined.

(** * Facts on the collector *)

Section CollectorFacts.

Local Open Scope nat_scope.

(** ** Line ranges *)

Lemma slice_nonneg {A} (l : list A) (s e : Z) :
  (0 <= s)%Z -> (0 <= e)%Z ->
  Py.slice l s e
  = take (Z.to_nat (Z.min e (Z.of_nat (length l)) - s)) (drop (Z.to_nat s) l).
Proof.
  intros Hs He. unfold Py.slice, Py.slice_index.
  destruct (Z.ltb_spec s 0) as [|_]; [lia|]. destruct (Z.ltb_spec e 0) as [|_]; [lia|].
  destruct (Z.le_gt_cases s (Z.of_nat (length l))) as [Hle|Hgt].
  - rewrite (Z.min_l s) by lia. reflexivity.
  - rewrite (Z.min_r s) by lia.
    rewrite !drop_ge by lia. now rewrite !take_nil.
Qed.

Lemma extract_loop_app self content lines ext rs1 : forall rs2 found total,
  extract_loop self content lines ext (rs1 ++ rs2) found total
  = match extract_loop self content lines ext rs1 found total with
    | Some (found', total') => extract_loop self content lines ext rs2 found' total'
    | None => None
    end.
Proof.
  induction rs1 as [|r rs1 IH]; intros rs2 found total; [reflexivity|].
  simpl. destruct (extract_one self content lines ext r) as [[s|]|]; auto.
Qed.

Lemma slice_lines_between (lines : list string) (start end_ : Z) :
  let n := Z.of_nat (length lines) in
  Py.slice lines (start - 1) end_
  = lines_between lines (range_first n start) (range_last n end_).
Proof.
  intros n. unfold Py.slice, Py.slice_index, lines_between, range_first, range_last.
  fold n.
  assert (He : (if (end_ <? 0)%Z then Z.max (end_ + n) 0 else Z.min end_ n)
               = (if (0 <=? end_)%Z then Z.min end_ n else Z.max (end_ + n) 0)).
  { destruct (Z.ltb_spec end_ 0), (Z.leb_spec 0 end_); lia || reflexivity. }
  rewrite He. set (e := if (0 <=? end_)%Z then _ else _).
  destruct (Z.ltb_spec (start - 1) 0), (Z.leb_spec 1 start); try lia.
  - f_equal; [f_equal; lia|]. f_equal. lia.
  - destruct (Z.le_gt_cases (start - 1) n).
    + rewrite Z.min_l by lia. f_equal. f_equal. lia.
    + rewrite !drop_ge by (unfold n in *; lia). now rewrite !take_nil.
Qed.

(** What the loop does with the snippets found so far does not depend on
    them: a run from other accumulators fails alike or adds the same. *)
Lemma extract_loop_acc self content lines ext rs : forall f1 t1 f2 t2,
  match extract_loop self content lines ext rs f1 t1 with
  | Some (f1', t1') =>
      exists add n, f1' = f1 ++ add /\ t1' = t1 + n
        /\ extract_loop self content lines ext rs f2 t2 = Some (f2 ++ add, t2 + n)
  | None => extract_loop self content lines ext rs f2 t2 = None
  end.
Proof.
  induction rs as [|r rs IH]; intros f1 t1 f2 t2; simpl.
  - exists [], 0. now rewrite !app_nil_r, !Nat.add_0_r.
  - destruct (extract_one self content lines ext r) as [[s|]|]; [| apply IH | reflexivity].
    specialize (IH (f1 ++ [s]) (t1 + default 0 (sn_lines s))
                   (f2 ++ [s]) (t2 + default 0 (sn_lines s))).
    destruct (extract_loop self content lines ext rs (f1 ++ [s]) _) as [[f1' t1']|];
      [|exact IH].
    destruct IH as (add & n & -> & -> & E).
    exists (s :: add), (default 0 (sn_lines s) + n).
    rewrite E. rewrite <- !app_assoc. simpl. split; [reflexivity|].
    split; [lia|]. f_equal. f_equal. lia.
Qed.

Lemma extract_one_lines self content lines ext spec :
  rs_type spec = "lines" ->
  let n := Z.of_nat (length lines) in
  let start := default 1%Z (rs_start spec) in
  let end_ := default n (rs_end spec) in
  let picked := lines_between lines (range_first n start) (range_last n end_) in
  extract_one self content lines ext spec
  = Some (Some (mk_snippet "lines" None (Some (pretty start +:+ "-" +:+ pretty end_))
                  (Py.join newline picked) (Some (length picked)))).
Proof.
  intros Hty n start end_ picked. unfold extract_one. rewrite Hty.
  change (String.eqb "lines" "lines") with true. cbv iota.
  fold n. fold start. fold end_. rewrite slice_lines_between. fold n. fold picked.
  replace (start - 1 + 1)%Z with start by lia. reflexivity.
Qed.

(** C5 (as the code has it): a lines spec, wherever it stands among the
    specs, yields the lines [first] to [last] of the file, counted from 1
    with both ends included, where for [start >= 1] and [end >= 0] these are
    [max(start, 1)] and [min(end, line count)]; a [start <= 0] or an
    [end < 0] is counted back from the end of the file.  The call raises
    with the spec exactly when it raises without it, and otherwise its
    result is the one without the spec with this snippet put in at the
    spec's place and its line count added. *)
Theorem lines_range_clamped (w : world) (self : CodeCollector)
    (file_path : string) (f : file_data) (content : string)
    (spec : range_spec) (rs1 rs2 : list range_spec) :
  fs w (resolve_path w file_path) = RegularFile f ->
  decoded f = Some content ->
  rs_type spec = "lines" ->
  let lines := Py.splitlines content in
  let n := Z.of_nat (length lines) in
  let start := default 1%Z (rs_start spec) in
  let end_ := default n (rs_end spec) in
  let picked := lines_between lines (range_first n start) (range_last n end_) in
  let snip :=
    mk_snippet "lines" None (Some (pretty start +:+ "-" +:+ pretty end_))
      (Py.join newline picked) (Some (length picked)) in
  ((1 <= start)%Z -> (0 <= end_)%Z ->
     picked = lines_between lines (Z.max start 1) (Z.min end_ n))
  /\ (extract_snippets w self file_path (rs1 ++ spec :: rs2) = None
      <-> extract_snippets w self file_path (rs1 ++ rs2) = None)
  /\ (forall R, extract_snippets w self file_path (rs1 ++ spec :: rs2) = Some R ->
        exists R1 R0 found1 found2 total,
          extract_snippets w self file_path rs1 = Some R1
          /\ pr_snippets R1 = Some [mk_group file_path found1]
          /\ extract_snippets w self file_path (rs1 ++ rs2) = Some R0
          /\ pr_snippets R0 = Some [mk_group file_path (found1 ++ found2)]
          /\ pr_total_lines R0 = Some total
          /\ pr_snippets R = Some [mk_group file_path (found1 ++ snip :: found2)]
          /\ pr_total_lines R = Some (total + length picked)).
Proof.
  intros Hfs Hdec Hty lines n start end_ picked snip.
  split.
  { intros Hs He. unfold picked, range_first, range_last.
    destruct (Z.leb_spec 1 start), (Z.leb_spec 0 end_); try lia.
    now rewrite Z.max_l by lia. }
  assert (Hone : extract_one self content lines (path_suffix w (resolve_path w file_path)) spec
                 = Some (Some snip)) by (now apply extract_one_lines).
  unfold extract_snippets. rewrite Hfs, Hdec. fold lines.
  set (ext := path_suffix w (resolve_path w file_path)) in *.
  rewrite !extract_loop_app.
  destruct (extract_loop self content lines ext rs1 [] 0) as [[found1 t1]|] eqn:E1.
  2:{ split; [tauto | intros R H; discriminate]. }
  cbn [extract_loop]. rewrite Hone. cbn [sn_lines snip from_option id].
  pose proof (extract_loop_acc self content lines ext rs2 found1 t1
                (found1 ++ [snip]) (t1 + length picked)) as Hacc.
  destruct (extract_loop self content lines ext rs2 found1 t1) as [[f' t']|] eqn:E2.
  - destruct Hacc as (add & k & -> & -> & E3). rewrite E3. split.
    + split; discriminate.
    + intros R HR. injection HR as <-.
      eexists _, _, found1, add, (t1 + k). split; [reflexivity|].
      split; [reflexivity|]. split; [reflexivity|]. split; [reflexivity|].
      split; [reflexivity|]. cbn [pr_snippets pr_total_lines].
      split; [now rewrite <- app_assoc | f_equal; lia].
  - rewrite Hacc. split; [tauto | intros R H; discriminate].
Qed.

Lemma lines_range_clamped_witness :
  let w := Example.the_world in
  let self := Example.plain_collector in
  let spec := mk_range "lines" (Some 2%Z) (Some 100%Z) None in
  let rs1 := [Example.named "function" "calculate_total"] in
  let rs2 := [Example.lines_range 9 100] in
  let lines := Py.splitlines Example.calc_py in
  let n := Z.of_nat (length lines) in
  let start := default 1%Z (rs_start spec) in
  let end_ := default n (rs_end spec) in
  let picked := lines_between lines (range_first n start) (range_last n end_) in
  let snip :=
    mk_snippet "lines" None (Some (pretty start +:+ "-" +:+ pretty end_))
      (Py.join newline picked) (Some (length picked)) in
  ((1 <= start)%Z -> (0 <= end_)%Z ->
     picked = lines_between lines (Z.max start 1) (Z.min end_ n))
  /\ (extract_snippets w self "calc.py" (rs1 ++ spec :: rs2) = None
      <-> extract_snippets w self "calc.py" (rs1 ++ rs2) = None)
  /\ (forall R, extract_snippets w self "calc.py" (rs1 ++ spec :: rs2) = Some R ->
        exists R1 R0 found1 found2 total,
          extract_snippets w self "calc.py" rs1 = Some R1
          /\ pr_snippets R1 = Some [mk_group "calc.py" found1]
          /\ extract_snippets w self "calc.py" (rs1 ++ rs2) = Some R0
          /\ pr_snippets R0 = Some [mk_group "calc.py" (found1 ++ found2)]
          /\ pr_total_lines R0 = Some total
          /\ pr_snippets R = Some [mk_group "calc.py" (found1 ++ snip :: found2)]
          /\ pr_total_lines R = Some (total + length picked)).
Proof.
  apply (lines_range_clamped Example.the_world Example.plain_collector "calc.py"
           (mk_file_data 120 (Some Example.calc_py) (Some 10)) Example.calc_py
           (mk_range "lines" (Some 2%Z) (Some 100%Z) None)
           [Example.named "function" "calculate_total"] [Example.lines_range 9 100]);
    reflexivity.
Defined.

(** C5 as stated fails for [start <= 0]: [start - 1] is then a negative
    index and the slice counts it from the end.  On the three lines a, b, c
    the spec [start = 0, end = 3] yields the last line only, not lines 1
    to 3. *)
Lemma lines_range_start_zero :
  exists R,
    extract_snippets Example.the_world Example.plain_collector "abc.txt"
      [mk_range "lines" (Some 0%Z) (Some 3%Z) None] = Some R
    /\ pr_snippets R
       = Some [mk_group "abc.txt" [mk_snippet "lines" None (Some "0-3") "c" (Some 1)]]
    /\ Py.join newline (lines_between ["a"; "b"; "c"] (Z.max 0 1) (Z.min 3 3)) <> "c".
Proof. eexists. split; [reflexivity|]. split; [reflexivity | discriminate]. Qed.

(** ** Specs that find nothing *)

Lemma find_definition_none pattern lines : forall i0,
  Forall (fun line => Re.search pattern line = false) lines ->
  find_definition pattern i0 lines = None.
Proof.
  induction lines as [|line lines IH]; intros i0 H; [reflexivity|].
  inversion H as [|? ? Hl Hr]; subst. simpl. now rewrite Hl, IH.
Qed.

Lemma no_line_matches pattern lines :
  forallb (fun line => negb (Re.search pattern line)) lines = true ->
  Forall (fun line => Re.search pattern line = false) lines.
Proof.
  induction lines as [|line lines IH]; simpl; intros H; constructor.
  - apply andb_prop in H as [H _]. now apply negb_true_iff.
  - apply IH. now apply andb_prop in H as [_ H].
Qed.

(** A named spec whose name no line declares yields no snippet. *)
Lemma extract_one_unmatched self content ext ty n s e :
  Py.mem ty ["function"; "class"; "method"] = true ->
  (forall p, select_pattern (Some n) ty ext = Pattern p ->
             Forall (fun line => Re.search p line = false) (Py.splitlines content)) ->
  extract_one self content (Py.splitlines content) ext (mk_range ty s e (Some n))
  = Some None.
Proof.
  intros Hty Hno. unfold extract_one. cbn [rs_type rs_name].
  destruct (String.eqb_spec ty "lines") as [->|_]; [discriminate Hty|].
  rewrite Hty. unfold _extract_by_name.
  destruct (select_pattern (Some n) ty ext) as [|p|] eqn:Hp.
  - reflexivity.
  - now rewrite (find_definition_none p _ 0 (Hno p eq_refl)).
  - exfalso. revert Hp. unfold select_pattern, with_name.
    repeat match goal with |- context [if ?b then _ else _] => destruct b end;
      discriminate.
Qed.

(** C9: a function, class or method spec whose name matches no declaration
    line of the target is dropped: the result of [extract_snippets] is the
    one it gives without that spec, so no snippet, no error object and no
    line count comes from it. *)
Theorem unmatched_name_dropped (w : world) (self : CodeCollector) (file_path : string)
    (rs1 rs2 : list range_spec) (ty n : string) (s e : option Z) :
  Py.mem ty ["function"; "class"; "method"] = true ->
  (forall p, select_pattern (Some n) ty (path_suffix w (resolve_path w file_path)) = Pattern p ->
             Forall (fun line => Re.search p line = false) (target_lines w file_path)) ->
  extract_snippets w self file_path (rs1 ++ mk_range ty s e (Some n) :: rs2)
  = extract_snippets w self file_path (rs1 ++ rs2).
Proof.
  intros Hty Hno. unfold extract_snippets, target_lines in *.
  destruct (fs w (resolve_path w file_path)) as [| |f]; try reflexivity.
  destruct (decoded f) as [content|]; [|reflexivity]. simpl in Hno.
  rewrite !extract_loop_app.
  destruct (extract_loop self content _ _ rs1 [] 0) as [[found total]|]; [|reflexivity].
  cbn [extract_loop]. now rewrite extract_one_unmatched.
Qed.

Lemma unmatched_name_dropped_witness :
  extract_snippets Example.the_world Example.plain_collector "calc.py"
    ([Example.named "function" "calculate_total"]
       ++ mk_range "function" None None (Some "grand_total") :: [Example.lines_range 1 2])
  = extract_snippets Example.the_world Example.plain_collector "calc.py"
      ([Example.named "function" "calculate_total"] ++ [Example.lines_range 1 2]).
Proof.
  apply unmatched_name_dropped; [reflexivity|].
  intros p Hp. injection Hp as <-. apply no_line_matches. vm_compute. reflexivity.
Defined.

(** ** Paths that are not regular files *)

Lemma import_step_not_regular w self st p :
  ~ is_regular (fs w (resolve_path w p)) -> import_step w self st p = st.
Proof.
  unfold import_step. destruct (fs w (resolve_path w p)); simpl; tauto.
Qed.

Lemma import_step_files w self st q x :
  x ∈ im_files (import_step w self st q) ->
  x ∈ im_files st
  \/ (is_regular (fs w (resolve_path w q))
      /\ fi_path x = relative_to_project w (resolve_path w q)).
Proof.
  unfold import_step. destruct (fs w (resolve_path w q)) as [| |f]; auto.
  destruct (_ <? _)%Z; [simpl; auto|].
  destruct (decoded f); [|simpl; auto].
  destruct (_ && _); simpl; auto.
  rewrite elem_of_app, list_elem_of_singleton. intros [H| ->]; simpl; auto.
Qed.

Lemma import_step_skipped w self st q e :
  e ∈ im_skipped (import_step w self st q) ->
  e ∈ im_skipped st \/ (is_regular (fs w (resolve_path w q)) /\ sk_path e = q).
Proof.
  unfold import_step. destruct (fs w (resolve_path w q)) as [| |f]; auto.
  destruct (_ <? _)%Z; simpl.
  { rewrite elem_of_app, list_elem_of_singleton. intros [H| ->]; simpl; auto. }
  destruct (decoded f); simpl.
  2:{ rewrite elem_of_app, list_elem_of_singleton. intros [H| ->]; simpl; auto. }
  destruct (_ && _); simpl; auto.
  rewrite elem_of_app, list_elem_of_singleton. intros [H| ->]; simpl; auto.
Qed.

Lemma import_fold_origin w self paths : forall st,
  let st' := foldl (import_step w self) st paths in
  (forall x, x ∈ im_files st' ->
     x ∈ im_files st
     \/ exists q, q ∈ paths /\ is_regular (fs w (resolve_path w q))
                  /\ fi_path x = relative_to_project w (resolve_path w q))
  /\ (forall e, e ∈ im_skipped st' ->
        e ∈ im_skipped st
        \/ exists q, q ∈ paths /\ is_regular (fs w (resolve_path w q)) /\ sk_path e = q).
Proof.
  induction paths as [|q paths IH]; intros st; simpl; [auto|].
  destruct (IH (import_step w self st q)) as [IHf IHs]. split.
  - intros x Hx. destruct (IHf x Hx) as [H|(q' & Hq' & H)].
    + destruct (import_step_files _ _ _ _ _ H) as [|[? ?]]; [auto|].
      right. exists q. split; [left|]; auto.
    + right. exists q'. split; [right|]; auto.
  - intros e He. destruct (IHs e He) as [H|(q' & Hq' & H)].
    + destruct (import_step_skipped _ _ _ _ _ H) as [|[? ?]]; [auto|].
      right. exists q. split; [left|]; auto.
    + right. exists q'. split; [right|]; auto.
Qed.

(** C10: a path that does not exist or is not a regular file leaves no
    trace: the result of [batch_import] is the one it gives without that
    path (files, skipped entries, tree and stats alike), and every file
    record and every skipped entry of a result comes from a path of the
    input that is a regular file. *)
Theorem not_regular_omitted (w : world) (self : CodeCollector)
    (ps1 ps2 : list string) (p : string) :
  ~ is_regular (fs w (resolve_path w p)) ->
  let R := batch_import w self (ps1 ++ p :: ps2) in
  R = batch_import w self (ps1 ++ ps2)
  /\ (forall x, x ∈ default [] (pr_files R) ->
        exists q, q ∈ ps1 ++ p :: ps2 /\ is_regular (fs w (resolve_path w q))
                  /\ fi_path x = relative_to_project w (resolve_path w q))
  /\ (forall e, e ∈ default [] (pr_skipped_files R) ->
        exists q, q ∈ ps1 ++ p :: ps2 /\ is_regular (fs w (resolve_path w q))
                  /\ sk_path e = q).
Proof.
  intros Hp R. split; [|split].
  - unfold R, batch_import. rewrite !foldl_app. simpl.
    now rewrite import_step_not_regular.
  - intros x Hx. unfold R, batch_import in Hx. simpl in Hx.
    destruct (import_fold_origin w self (ps1 ++ p :: ps2) (mk_import [] [] [] 0 ∅))
      as [Hf _].
    destruct (Hf x Hx) as [H|H]; [|exact H]. simpl in H. inversion H.
  - intros e He. unfold R, batch_import in He. simpl in He.
    destruct (import_fold_origin w self (ps1 ++ p :: ps2) (mk_import [] [] [] 0 ∅))
      as [_ Hs].
    destruct (Hs e He) as [H|H]; [|exact H]. simpl in H. inversion H.
Qed.

Lemma not_regular_omitted_witness :
  let R := batch_import Example.the_world Example.plain_collector
             (["calc.py"; "big.c"] ++ "missing.c" :: ["main.c"]) in
  R = batch_import Example.the_world Example.plain_collector
        (["calc.py"; "big.c"] ++ ["main.c"])
  /\ (forall x, x ∈ default [] (pr_files R) ->
        exists q, q ∈ ["calc.py"; "big.c"] ++ "missing.c" :: ["main.c"]
                  /\ is_regular (fs Example.the_world (resolve_path Example.the_world q))
                  /\ fi_path x
                     = relative_to_project Example.the_world
                         (resolve_path Example.the_world q))
  /\ (forall e, e ∈ default [] (pr_skipped_files R) ->
        exists q, q ∈ ["calc.py"; "big.c"] ++ "missing.c" :: ["main.c"]
                  /\ is_regular (fs Example.the_world (resolve_path Example.the_world q))
                  /\ sk_path e = q).
Proof.
  apply (not_regular_omitted Example.the_world Example.plain_collector
           ["calc.py"; "big.c"] ["main.c"] "missing.c").
  simpl. tauto.
Defined.

(** ** The end of an indented block *)

Lemma find_definition_some pattern lines : forall i0 start,
  find_definition pattern i0 lines = Some start ->
  i0 <= start /\ exists line, lines !! (start - i0) = Some line
                              /\ Re.search pattern line = true.
Proof.
  induction lines as [|line lines IH]; intros i0 start H; [discriminate|].
  simpl in H. destruct (Re.search pattern line) eqn:Hs.
  - injection H as <-. split; [lia|]. exists line. now rewrite Nat.sub_diag.
  - destruct (IH _ _ H) as [Hle (l & Hl & Hm)]. split; [lia|].
    exists l. split; [|exact Hm].
    replace (start - i0) with (S (start - S i0)) by lia. exact Hl.
Qed.

(** What the loop of [_find_end_by_indent] returns: the first line at or
    below the base indent that is not blank, with only blank or deeper lines
    before it; or nothing when all lines are blank or deeper. *)
Lemma end_by_indent_loop_spec base rest : forall i,
  match end_by_indent_loop base i rest with
  | Some e =>
      i <= e < i + length rest
      /\ (forall j line, i <= j < e -> rest !! (j - i) = Some line ->
            is_blank line = true \/ base < indent_of line)
      /\ (exists line, rest !! (e - i) = Some line
                       /\ is_blank line = false /\ indent_of line <= base)
  | None =>
      forall j line, rest !! j = Some line ->
        is_blank line = true \/ base < indent_of line
  end.
Proof.
  induction rest as [|l rest IH]; intros i; simpl.
  - intros j line H. discriminate.
  - destruct (is_blank l) eqn:Hb; simpl.
    + specialize (IH (S i)). destruct (end_by_indent_loop base (S i) rest) as [e|].
      * destruct IH as (Hr & Hin & line & Hl & Hnb & Hle). split; [lia|]. split.
        -- intros j x Hj Hx. destruct (decide (j = i)) as [->|Hne].
           ++ rewrite Nat.sub_diag in Hx. injection Hx as <-. auto.
           ++ apply (Hin j); [lia|].
              replace (j - i) with (S (j - S i)) in Hx by lia. exact Hx.
        -- exists line. replace (e - i) with (S (e - S i)) by lia. auto.
      * intros [|j] x Hx; simpl in Hx; [injection Hx as <-; auto | eauto].
    + rewrite andb_true_r. destruct (Nat.leb_spec (indent_of l) base) as [Hle|Hgt].
      * split; [lia|]. split; [intros; lia|]. exists l. rewrite Nat.sub_diag. auto.
      * specialize (IH (S i)). destruct (end_by_indent_loop base (S i) rest) as [e|].
        -- destruct IH as (Hr & Hin & line & Hl & Hnb & Hle). split; [lia|]. split.
           ++ intros j x Hj Hx. destruct (decide (j = i)) as [->|Hne].
              ** rewrite Nat.sub_diag in Hx. injection Hx as <-. auto.
              ** apply (Hin j); [lia|].
                 replace (j - i) with (S (j - S i)) in Hx by lia. exact Hx.
           ++ exists line. replace (e - i) with (S (e - S i)) by lia. auto.
        -- intros [|j] x Hx; simpl in Hx; [injection Hx as <-; auto | eauto].
Qed.

Lemma find_end_by_indent_spec lines start :
  start < length lines ->
  let end_ := _find_end_by_indent lines start in
  let base := indent_of (default EmptyString (lines !! start)) in
  start < end_ <= length lines
  /\ (forall i line, start < i < end_ -> lines !! i = Some line ->
        is_blank line = true \/ base < indent_of line)
  /\ (forall line, lines !! end_ = Some line ->
        is_blank line = false /\ indent_of line <= base).
Proof.
  intros Hstart end_ base. unfold end_, _find_end_by_indent. fold base.
  pose proof (end_by_indent_loop_spec base (drop (start + 1) lines) (start + 1)) as H.
  assert (Hlen : length (drop (start + 1) lines) = length lines - (start + 1))
    by apply length_drop.
  destruct (end_by_indent_loop base (start + 1) (drop (start + 1) lines)) as [e|]; simpl.
  - destruct H as (Hr & Hin & line & Hl & Hnb & Hle). rewrite Hlen in Hr.
    split; [lia|]. split.
    + intros i x Hi Hx. apply (Hin i); [lia|]. rewrite lookup_drop.
      replace (start + 1 + (i - (start + 1))) with i by lia. exact Hx.
    + intros x Hx. rewrite lookup_drop in Hl.
      replace (start + 1 + (e - (start + 1))) with e in Hl by lia.
      rewrite Hx in Hl. injection Hl as ->. auto.
  - split; [lia|]. split.
    + intros i x Hi Hx. apply (H (i - (start + 1))). rewrite lookup_drop.
      replace (start + 1 + (i - (start + 1))) with i by lia. exact Hx.
    + intros x Hx. apply lookup_lt_Some in Hx. lia.
Qed.

(** C6 (as the code has it): on a file of an indentation language, when a
    line declares the name, the returned span runs from that line to just
    before the first later line that is not blank and whose indent is at most
    the declaration's.  Every span line after the declaration is blank or
    deeper than the declaration, and the line right after the span, when the
    file has one, is not blank and has indent at most the base indent: the
    terminating line is outside the span. *)
Theorem indent_span (w : world) (self : CodeCollector) (content : string)
    (name : option string) (element_type file_ext : string)
    (pattern : Re.pattern) (start : nat) :
  Py.mem file_ext brace_languages = false ->
  select_pattern name element_type file_ext = Pattern pattern ->
  find_definition pattern 0 (Py.splitlines content) = Some start ->
  let lines := Py.splitlines content in
  let end_ := _find_end_by_indent lines start in
  let base := indent_of (default EmptyString (lines !! start)) in
  _extract_by_name self content name element_type file_ext false
  = Some (Some (Py.join newline (take (end_ - start) (drop start lines))), end_ - start)
  /\ start < end_ <= length lines
  /\ (forall i line, start < i < end_ -> lines !! i = Some line ->
        is_blank line = true \/ base < indent_of line)
  /\ (forall line, lines !! end_ = Some line ->
        is_blank line = false /\ indent_of line <= base).
Proof.
  intros Hext Hpat Hfind lines end_ base.
  destruct (find_definition_some _ _ _ _ Hfind) as [_ (l & Hl & _)].
  rewrite Nat.sub_0_r in Hl. fold lines in Hl.
  assert (Hstart : start < length lines) by (eapply lookup_lt_Some; eauto).
  destruct (find_end_by_indent_spec lines start Hstart) as (Hr & Hin & Hend).
  fold end_ in Hr, Hin, Hend. fold base in Hin, Hend.
  split; [|auto].
  change (Py.splitlines content) with lines in Hfind.
  unfold _extract_by_name. rewrite Hpat. fold lines. rewrite Hfind, Hext.
  cbn [andb]. fold end_.
  assert (Hslice : Py.slice lines (Z.of_nat start) (Z.of_nat end_)
                   = take (end_ - start) (drop start lines)).
  { rewrite slice_nonneg by lia. rewrite Nat2Z.id. f_equal. lia. }
  rewrite Hslice. f_equal. f_equal.
  rewrite length_take, length_drop. lia.
Qed.

Lemma indent_span_witness :
  let content := Example.text ["def f():"; "    return 1"; "x = 2"] in
  let pattern :=
    Re.Anchored (Re.Seq [ws_star; Re.Lit "def"; ws_plus; Re.Lit "f"; ws_star; Re.Chr "("]) in
  let lines := Py.splitlines content in
  let end_ := _find_end_by_indent lines 0 in
  let base := indent_of (default EmptyString (lines !! 0)) in
  _extract_by_name Example.plain_collector content (Some "f") "function" ".py" false
  = Some (Some (Py.join newline (take (end_ - 0) (drop 0 lines))), end_ - 0)
  /\ 0 < end_ <= length lines
  /\ (forall i line, 0 < i < end_ -> lines !! i = Some line ->
        is_blank line = true \/ base < indent_of line)
  /\ (forall line, lines !! end_ = Some line ->
        is_blank line = false /\ indent_of line <= base).
Proof.
  intros content pattern.
  apply (indent_span Example.the_world Example.plain_collector content (Some "f")
           "function" ".py" pattern 0); reflexivity.
Defined.

(** C6 as stated fails: for [def f(): / return 1 / x = 2] the span is the
    first two lines, and its last line is the body line at indent 4, deeper
    than the declaration at indent 0; the line at indent 0 that ends the
    block is not part of the span. *)
Lemma indent_span_last_line_deeper :
  _extract_by_name Example.plain_collector
    (Example.text ["def f():"; "    return 1"; "x = 2"]) (Some "f") "function" ".py" false
  = Some (Some (Example.text ["def f():"; "    return 1"]), 2)
  /\ last ["def f():"; "    return 1"] = Some "    return 1"
  /\ indent_of "    return 1" = 4
  /\ indent_of "def f():" = 0
  /\ ~ (indent_of "    return 1" <= indent_of "def f():").
Proof. repeat split; try reflexivity. vm_compute. lia. Qed.

(** ** Skipped entries through a merge *)

Lemma elem_of_paths_set {A} (f : A -> string) (l : list A) (p : string) :
  p ∈ (list_to_set (f <$> l) : gset string) <-> p ∈ f <$> l.
Proof. apply elem_of_list_to_set. Qed.


(** C7 (the code where it leaves the claim): [batch_import] skips the
    oversized [big.c] and the merge records the entry; a later
    [extract_snippets] on [big.c] for a function the file does not have finds
    nothing, yet returns a snippet group for the path, and merging that
    result removes the entry although nothing was extracted; and two new
    skipped entries of one path, as [batch_import] returns them for a path
    given twice, are both appended, since the recorded paths are collected
    once, before the loop that appends. *)
Theorem skipped_entry_lost_or_doubled :
  let w := Example.the_world in
  let self := Example.plain_collector in
  let big :=
    mk_skipped "big.c" (TooLarge (Qmake 600000 1024) 500)
               (Some (Qmake 600000 1024)) (Some 1) in
  let first_pass := merge_into w self Example.old_document (batch_import w self ["big.c"]) in
  skipped_files first_pass = [big]
  /\ (exists R M,
        extract_snippets w self "big.c" [Example.named "function" "absent"] = Some R
        /\ pr_snippets R = Some [mk_group "big.c" []]
        /\ pr_total_lines R = Some 0
        /\ merge_markdown_data w self (Some first_pass) R = Merged M
        /\ skipped_files M = [])
  /\ (exists M,
        merge_markdown_data w self (Some Example.old_document)
          (batch_import w self ["big.c"; "big.c"]) = Merged M
        /\ skipped_files M = [big; big]).
Proof.
  intros w self big first_pass. split; [vm_compute; reflexivity|]. split.
  - eexists _, _. split; [vm_compute; reflexivity|].
    split; [reflexivity|]. split; [reflexivity|]. split; [reflexivity|].
    vm_compute. reflexivity.
  - eexists. split; [reflexivity|]. vm_compute. reflexivity.
Qed.

(** ** Statistics after a merge *)

Lemma add_languages_fold (l : list (string * nat)) : forall (m : gmap string nat) lang,
  NoDup l.*1 ->
  foldl (fun m '(lang, count) => <[lang := default 0 (m !! lang) + count]> m) m l !! lang
  = match (list_to_map l : gmap string nat) !! lang with
    | Some c => Some (default 0 (m !! lang) + c)
    | None => m !! lang
    end.
Proof.
  induction l as [|[k c] l IH]; intros m lang Hnd; [reflexivity|].
  simpl in Hnd. apply NoDup_cons in Hnd as [Hk Hnd].
  cbn [foldl]. rewrite IH by assumption. cbn [list_to_map foldr curry uncurry].
  change (foldr (fun '(i, x) => <[i:=x]>) ∅ l) with (list_to_map l : gmap string nat).
  destruct (decide (k = lang)) as [->|Hne].
  - rewrite (not_elem_of_list_to_map_1 l lang Hk). now rewrite !lookup_insert_eq.
  - rewrite !lookup_insert_ne by assumption. reflexivity.
Qed.

Lemma add_languages_lookup (old new : gmap string nat) (lang : string) :
  add_languages old new !! lang
  = match new !! lang with
    | Some c => Some (default 0 (old !! lang) + c)
    | None => old !! lang
    end.
Proof.
  unfold add_languages. rewrite add_languages_fold by apply NoDup_fst_map_to_list.
  now rewrite list_to_map_to_list.
Qed.

(** C2 (as the code has it): after a merge with a result that carries
    stats, [total_files] is recomputed from the merged buckets and snippet
    groups, [total_lines] is the sum of the old [total_lines] and the new
    result's [total_lines], and [languages] is the old map with the new
    result's counts added on top. *)
Theorem merged_stats (w : world) (self : CodeCollector)
    (S : snapshot) (R : partial_result) (new_stats : stats) :
  pr_stats R = Some new_stats ->
  exists M,
    merge_markdown_data w self (Some S) R = Merged M
    /\ total_files (snap_stats M)
       = length (files_core M) + length (files_other M) + length (snippets M)
    /\ total_lines (snap_stats M)
       = total_lines (snap_stats S) + total_lines new_stats
    /\ forall lang,
         languages (snap_stats M) !! lang
         = match languages new_stats !! lang with
           | Some count => Some (default 0 (languages (snap_stats S) !! lang) + count)
           | None => languages (snap_stats S) !! lang
           end.
Proof.
  intros Hst. exists (merge_into w self S R). split; [reflexivity|].
  unfold merge_into. rewrite Hst.
  destruct (match pr_files R with Some _ => _ | None => _ end) as [core other].
  simpl. repeat split. intros lang. apply add_languages_lookup.
Qed.

Lemma merged_stats_witness :
  exists M,
    merge_markdown_data Example.the_world Example.plain_collector
      (Some Example.old_document)
      (batch_import Example.the_world Example.plain_collector ["calc.py"]) = Merged M
    /\ total_files (snap_stats M)
       = length (files_core M) + length (files_other M) + length (snippets M)
    /\ total_lines (snap_stats M)
       = total_lines (snap_stats Example.old_document)
         + total_lines (mk_stats 1 10 {[ "python" := 1 ]})
    /\ forall lang,
         languages (snap_stats M) !! lang
         = match languages (mk_stats 1 10 {[ "python" := 1 ]}) !! lang with
           | Some count =>
               Some (default 0 (languages (snap_stats Example.old_document) !! lang) + count)
           | None => languages (snap_stats Example.old_document) !! lang
           end.
Proof.
  apply (merged_stats Example.the_world Example.plain_collector Example.old_document
           (batch_import Example.the_world Example.plain_collector ["calc.py"])
           (mk_stats 1 10 {[ "python" := 1 ]})).
  vm_compute. reflexivity.
Defined.

(** C2 as stated fails for [total_lines]: importing [main.c] again into a
    document that already holds it leaves one file of one line in the merged
    collections, yet the merged [total_lines] is 2. *)
Lemma merged_total_lines_not_recomputed :
  let M := merge_into Example.the_world Example.plain_collector Example.old_document
             (batch_import Example.the_world Example.plain_collector ["main.c"]) in
  files_core M ++ files_other M = [Example.main_c_parsed]
  /\ snippets M = []
  /\ derived_total_lines (files_core M ++ files_other M) (snippets M) = 1
  /\ total_files (snap_stats M) = 1
  /\ total_lines (snap_stats M) = 2.
Proof. vm_compute. repeat split. Qed.

(** ** Merging the same result twice *)

Lemma produced_single_pass R : produced R -> single_pass R.
Proof.
  intros [(w & self & paths & ->)|(w & self & path & ranges & H)].
  - left. reflexivity.
  - unfold extract_snippets in H.
    destruct (fs w (resolve_path w path)) as [| |f]; [|discriminate|].
    + injection H as <-. left. reflexivity.
    + destruct (decoded f) as [content|]; [|injection H as <-; left; reflexivity].
      destruct (extract_loop _ _ _ _ _ _ _) as [[found total]|]; [|discriminate].
      injection H as <-. right. eexists. split; reflexivity.
Qed.

Lemma filter_none {A} (P : A -> Prop) `{!forall x, Decision (P x)} (l : list A) :
  (forall x, x ∈ l -> ~ P x) -> filter P l = [].
Proof.
  induction l as [|x l IH]; intros Hall; [reflexivity|].
  rewrite filter_cons. destruct (decide (P x)) as [Hx|_].
  - exfalso. apply (Hall x); [left | exact Hx].
  - apply IH. intros y Hy. apply Hall. now right.
Qed.

Lemma filter_all {A} (P : A -> Prop) `{!forall x, Decision (P x)} (l : list A) :
  (forall x, x ∈ l -> P x) -> filter P l = l.
Proof.
  induction l as [|x l IH]; intros Hall; [reflexivity|].
  rewrite filter_cons. destruct (decide (P x)) as [_|Hx].
  - f_equal. apply IH. intros y Hy. apply Hall. now right.
  - exfalso. apply Hx, Hall. left.
Qed.

(** *** Files *)

Section Files.

Context (w : world) (self : CodeCollector).

Lemma merge_file_fold_id ep news : forall b,
  (forall f, f ∈ news -> fi_path f ∈ ep) ->
  foldl (merge_file w self ep) b news = b.
Proof.
  induction news as [|f news IH]; intros b H; [reflexivity|].
  simpl. unfold merge_file at 2. destruct (decide (fi_path f ∈ ep)) as [_|Hn].
  - apply IH. intros g Hg. apply H. now right.
  - exfalso. apply Hn, H. left.
Qed.

Lemma merge_file_new ep b g :
  fi_path g ∉ ep ->
  g ∈ (merge_file w self ep b g).1 \/ g ∈ (merge_file w self ep b g).2.
Proof.
  intros Hn. unfold merge_file. destruct (decide _); [contradiction|].
  destruct (_is_core_file _ _ _); simpl; [left | right];
    apply elem_of_app; right; left.
Qed.

Lemma merge_file_fold_cover ep news : forall b f,
  let r := foldl (merge_file w self ep) b news in
  (f ∈ b.1 -> f ∈ r.1) /\ (f ∈ b.2 -> f ∈ r.2)
  /\ (f ∈ news -> fi_path f ∈ ep \/ f ∈ r.1 \/ f ∈ r.2).
Proof.
  induction news as [|g news IH]; intros b f; simpl.
  - split; [auto|]. split; [auto|]. intros H; inversion H.
  - destruct (IH (merge_file w self ep b g) f) as (H1 & H2 & H3).
    assert (Hb1 : f ∈ b.1 -> f ∈ (merge_file w self ep b g).1).
    { unfold merge_file. destruct (decide _); [auto|].
      destruct (_is_core_file _ _ _); simpl; [|auto].
      intros ?. apply elem_of_app. auto. }
    assert (Hb2 : f ∈ b.2 -> f ∈ (merge_file w self ep b g).2).
    { unfold merge_file. destruct (decide _); [auto|].
      destruct (_is_core_file _ _ _); simpl; [auto|].
      intros ?. apply elem_of_app. auto. }
    split; [auto|]. split; [auto|].
    intros Hf. apply elem_of_cons in Hf as [->|Hf]; [|auto].
    destruct (decide (fi_path g ∈ ep)) as [|Hn]; [auto|].
    right. destruct (merge_file_new ep b g Hn); auto.
Qed.

Lemma merge_files_twice core other news :
  let r := merge_files w self core other news in
  merge_files w self r.1 r.2 news = r.
Proof.
  intros r. unfold merge_files at 1. rewrite merge_file_fold_id.
  - now destruct r.
  - intros f Hf. apply elem_of_paths_set, list_elem_of_fmap.
    unfold r, merge_files in *.
    set (ep := (list_to_set (fi_path <$> core ++ other) : gset string)).
    destruct (merge_file_fold_cover ep news (core, other) f) as (_ & _ & H3).
    destruct (H3 Hf) as [Hep|[H|H]].
    + apply elem_of_paths_set, list_elem_of_fmap in Hep as (f0 & Hp & Hin).
      exists f0. split; [exact Hp|]. apply elem_of_app in Hin as [Hin|Hin].
      * destruct (merge_file_fold_cover ep news (core, other) f0) as (H1 & _ & _).
        apply elem_of_app. left. auto.
      * destruct (merge_file_fold_cover ep news (core, other) f0) as (_ & H2 & _).
        apply elem_of_app. right. auto.
    + exists f. split; [reflexivity|]. apply elem_of_app. auto.
    + exists f. split; [reflexivity|]. apply elem_of_app. auto.
Qed.

End Files.

(** *** Snippet groups *)

Lemma index_groups_app l1 l2 : forall i m,
  index_groups i (l1 ++ l2) m = index_groups (i + length l1) l2 (index_groups i l1 m).
Proof.
  induction l1 as [|g l1 IH]; intros i m; simpl.
  - now rewrite Nat.add_0_r.
  - rewrite IH. f_equal. lia.
Qed.

Lemma index_groups_paths l : forall l' i m,
  sg_file_path <$> l = sg_file_path <$> l' ->
  index_groups i l m = index_groups i l' m.
Proof.
  induction l as [|g l IH]; intros [|g' l'] i m H; try discriminate; [reflexivity|].
  simpl in *. injection H as Hg Hl. rewrite Hg. now apply IH.
Qed.

Lemma extend_group_path g new : sg_file_path (extend_group g new) = sg_file_path g.
Proof. reflexivity. Qed.

Lemma extend_group_twice g new :
  extend_group (extend_group g new) new = extend_group g new.
Proof.
  unfold extend_group at 1. rewrite filter_none.
  - rewrite app_nil_r. reflexivity.
  - intros s Hs Hn. apply Hn. apply elem_of_list_to_set, list_elem_of_fmap.
    cbn [extend_group sg_snippets].
    destruct (decide (snippet_id s ∈
                (list_to_set (snippet_id <$> sg_snippets g) : gset (option string))))
      as [Hin|Hout].
    + apply elem_of_list_to_set, list_elem_of_fmap in Hin as (s0 & Hid & Hin).
      exists s0. split; [exact Hid|]. apply elem_of_app. now left.
    + exists s. split; [reflexivity|]. apply elem_of_app. right.
      apply list_elem_of_filter. split; assumption.
Qed.

Lemma extend_group_self g : extend_group g (sg_snippets g) = g.
Proof.
  unfold extend_group. rewrite filter_none.
  - rewrite app_nil_r. now destruct g.
  - intros s Hs Hn. apply Hn. apply elem_of_list_to_set, list_elem_of_fmap. eauto.
Qed.

Lemma merge_snippets_twice old g :
  merge_snippets (merge_snippets old [g]) [g] = merge_snippets old [g].
Proof.
  unfold merge_snippets. cbn [foldl]. unfold merge_group at 2 3.
  destruct (index_groups 0 old ∅ !! sg_file_path g) as [idx|] eqn:Hidx.
  - unfold merge_group.
    rewrite (index_groups_paths _ old).
    + rewrite Hidx. rewrite list_alter_alter_eq. apply list_alter_ext; [|reflexivity].
      intros x _. apply extend_group_twice.
    + rewrite (list_fmap_alter sg_file_path _ id).
      * now rewrite list_alter_id.
      * apply Forall_forall. reflexivity.
  - unfold merge_group. rewrite index_groups_app. cbn [index_groups].
    rewrite lookup_insert_eq. rewrite Nat.add_0_l.
    rewrite (alter_app_r_alt _ old [g] (length old)) by lia.
    rewrite Nat.sub_diag.
    change (alter (fun g0 => extend_group g0 (sg_snippets g)) 0 [g])
      with [extend_group g (sg_snippets g)].
    rewrite extend_group_self. now rewrite Hidx.
Qed.

(** *** Tree and skipped entries *)

Lemma merge_structure_twice old new :
  merge_structure (merge_structure old new) new = merge_structure old new.
Proof.
  unfold merge_structure, _merge_tree_structures. destruct new as [n|]; [|reflexivity].
  destruct (String.eqb_spec n EmptyString) as [|Hn]; [reflexivity|].
  destruct (String.eqb_spec old EmptyString) as [|Ho].
  - destruct (String.eqb_spec n EmptyString); [contradiction | reflexivity].
  - destruct (String.eqb_spec old EmptyString); [contradiction | reflexivity].
Qed.

Lemma add_skipped_twice old news :
  add_skipped (add_skipped old news) news = add_skipped old news.
Proof.
  destruct news as [l|]; [|reflexivity].
  unfold add_skipped at 1. rewrite filter_none; [apply app_nil_r|].
  intros e He Hn. apply Hn. apply elem_of_paths_set, list_elem_of_fmap.
  cbn [add_skipped].
  destruct (decide (sk_path e ∈ (list_to_set (sk_path <$> old) : gset string)))
    as [Hin|Hout].
  - apply elem_of_paths_set, list_elem_of_fmap in Hin as (e0 & Hp & Hin).
    exists e0. split; [exact Hp|]. apply elem_of_app. now left.
  - exists e. split; [reflexivity|]. apply elem_of_app. right.
    apply list_elem_of_filter. split; assumption.
Qed.

Lemma drop_extracted_twice old groups :
  drop_extracted (drop_extracted old groups) groups = drop_extracted old groups.
Proof.
  unfold drop_extracted. destruct groups as [gs|]; [|reflexivity].
  apply filter_all. intros e He. now apply list_elem_of_filter in He as [? _].
Qed.

Lemma merged_skipped_twice old R :
  single_pass R ->
  let once := add_skipped (drop_extracted old (pr_snippets R)) (pr_skipped_files R) in
  add_skipped (drop_extracted once (pr_snippets R)) (pr_skipped_files R) = once.
Proof.
  intros [Hs|(g & Hs & Hk)]; rewrite Hs; [|rewrite Hk]; simpl.
  - apply add_skipped_twice.
  - apply (drop_extracted_twice old (Some [g])).
Qed.

(** *** The fields of a merge *)

Section MergeFields.

Context (w : world) (self : CodeCollector) (S : snapshot) (R : partial_result).

Lemma merge_into_files :
  (files_core (merge_into w self S R), files_other (merge_into w self S R))
  = match pr_files R with
    | Some new_files => merge_files w self (files_core S) (files_other S) new_files
    | None => (files_core S, files_other S)
    end.
Proof.
  unfold merge_into. destruct (pr_files R) as [nf|]; [|reflexivity].
  destruct (merge_files w self (files_core S) (files_other S) nf) eqn:E; reflexivity.
Qed.

Lemma merge_into_snippets :
  snippets (merge_into w self S R)
  = match pr_snippets R with
    | Some new_groups => merge_snippets (snippets S) new_groups
    | None => snippets S
    end.
Proof.
  unfold merge_into. destruct (pr_files R) as [nf|]; [|reflexivity].
  destruct (merge_files w self (files_core S) (files_other S) nf) eqn:E; reflexivity.
Qed.

Lemma merge_into_skipped :
  skipped_files (merge_into w self S R)
  = add_skipped (drop_extracted (skipped_files S) (pr_snippets R)) (pr_skipped_files R).
Proof.
  unfold merge_into. destruct (pr_files R) as [nf|]; [|reflexivity].
  destruct (merge_files w self (files_core S) (files_other S) nf) eqn:E; reflexivity.
Qed.

Lemma merge_into_structure :
  structure (merge_into w self S R) = merge_structure (structure S) (pr_structure R).
Proof.
  unfold merge_into. destruct (pr_files R) as [nf|]; [|reflexivity].
  destruct (merge_files w self (files_core S) (files_other S) nf) eqn:E; reflexivity.
Qed.

Lemma merge_into_header : header (merge_into w self S R) = header S.
Proof.
  unfold merge_into. destruct (pr_files R) as [nf|]; [|reflexivity].
  destruct (merge_files w self (files_core S) (files_other S) nf) eqn:E; reflexivity.
Qed.

Lemma merge_into_stats :
  snap_stats (merge_into w self S R)
  = match pr_stats R with
    | Some new_stats =>
        mk_stats (length (files_core (merge_into w self S R))
                  + length (files_other (merge_into w self S R))
                  + length (snippets (merge_into w self S R)))
                 (total_lines (snap_stats S) + total_lines new_stats)
                 (add_languages (languages (snap_stats S)) (languages new_stats))
    | None => snap_stats S
    end.
Proof.
  unfold merge_into. destruct (pr_files R) as [nf|]; [|reflexivity].
  destruct (merge_files w self (files_core S) (files_other S) nf) eqn:E; reflexivity.
Qed.

End MergeFields.

(** C1 (as the code has it): merging a result of [batch_import] or
    [extract_snippets] a second time changes neither the header, the two
    file buckets, the snippet groups, the tree, the skipped entries nor
    [total_files]; [total_lines] and [languages] are not recomputed and grow
    by the result's own numbers at each merge. *)
Theorem merge_twice (w : world) (self : CodeCollector) (S : snapshot) (R : partial_result) :
  produced R ->
  exists M1 M2,
    merge_markdown_data w self (Some S) R = Merged M1
    /\ merge_markdown_data w self (Some M1) R = Merged M2
    /\ header M2 = header M1
    /\ files_core M2 = files_core M1
    /\ files_other M2 = files_other M1
    /\ snippets M2 = snippets M1
    /\ structure M2 = structure M1
    /\ skipped_files M2 = skipped_files M1
    /\ total_files (snap_stats M2) = total_files (snap_stats M1)
    /\ (forall new_stats, pr_stats R = Some new_stats ->
          total_lines (snap_stats M2)
          = total_lines (snap_stats M1) + total_lines new_stats
          /\ languages (snap_stats M2)
             = add_languages (languages (snap_stats M1)) (languages new_stats)).
Proof.
  intros HR. apply produced_single_pass in HR.
  set (M1 := merge_into w self S R). set (M2 := merge_into w self M1 R).
  exists M1, M2. split; [reflexivity|]. split; [reflexivity|].
  assert (Hfiles : (files_core M2, files_other M2) = (files_core M1, files_other M1)).
  { unfold M2. rewrite merge_into_files.
    pose proof (merge_into_files w self S R) as H1. fold M1 in H1.
    destruct (pr_files R) as [nf|]; [|reflexivity].
    pose proof (merge_files_twice w self (files_core S) (files_other S) nf) as H2.
    cbv zeta in H2. rewrite <- H1 in H2. exact H2. }
  assert (Hsn : snippets M2 = snippets M1).
  { unfold M2. rewrite merge_into_snippets. unfold M1. rewrite merge_into_snippets.
    destruct HR as [->|(g & -> & _)]; [reflexivity | apply merge_snippets_twice]. }
  assert (Hsk : skipped_files M2 = skipped_files M1).
  { unfold M2. rewrite merge_into_skipped. unfold M1. rewrite merge_into_skipped.
    apply (merged_skipped_twice (skipped_files S) R HR). }
  injection Hfiles as Hc Ho.
  split; [unfold M2; now rewrite merge_into_header|].
  do 3 (split; [assumption|]).
  split; [unfold M2, M1; rewrite !merge_into_structure; apply merge_structure_twice|].
  split; [assumption|]. split.
  - unfold M2. rewrite merge_into_stats. fold M2.
    pose proof (merge_into_stats w self S R) as H1. fold M1 in H1.
    destruct (pr_stats R); [|reflexivity]. rewrite H1. cbn [total_files]. congruence.
  - intros new_stats Hst. unfold M2. rewrite merge_into_stats, Hst. split; reflexivity.
Qed.

Lemma merge_twice_witness :
  exists M1 M2,
    merge_markdown_data Example.the_world Example.plain_collector
      (Some Example.old_document)
      (batch_import Example.the_world Example.plain_collector ["calc.py"; "main.c"])
    = Merged M1
    /\ merge_markdown_data Example.the_world Example.plain_collector (Some M1)
         (batch_import Example.the_world Example.plain_collector ["calc.py"; "main.c"])
       = Merged M2
    /\ header M2 = header M1
    /\ files_core M2 = files_core M1
    /\ files_other M2 = files_other M1
    /\ snippets M2 = snippets M1
    /\ structure M2 = structure M1
    /\ skipped_files M2 = skipped_files M1
    /\ total_files (snap_stats M2) = total_files (snap_stats M1)
    /\ (forall new_stats,
          pr_stats (batch_import Example.the_world Example.plain_collector
                      ["calc.py"; "main.c"]) = Some new_stats ->
          total_lines (snap_stats M2)
          = total_lines (snap_stats M1) + total_lines new_stats
          /\ languages (snap_stats M2)
             = add_languages (languages (snap_stats M1)) (languages new_stats)).
Proof.
  apply (merge_twice Example.the_world Example.plain_collector Example.old_document
           (batch_import Example.the_world Example.plain_collector ["calc.py"; "main.c"])).
  left. exists Example.the_world, Example.plain_collector, ["calc.py"; "main.c"].
  reflexivity.
Defined.

(** C1 as stated fails in the stats record: merging the import of [main.c]
    into a document that holds it gives [total_lines] 2 and counts the
    language [c] twice; merging the same result again gives 3 and 3. *)
Lemma merge_twice_stats_differ :
  let R := batch_import Example.the_world Example.plain_collector ["main.c"] in
  let M1 := merge_into Example.the_world Example.plain_collector Example.old_document R in
  let M2 := merge_into Example.the_world Example.plain_collector M1 R in
  total_lines (snap_stats M1) = 2 /\ total_lines (snap_stats M2) = 3
  /\ languages (snap_stats M1) !! "c" = Some 2
  /\ languages (snap_stats M2) !! "c" = Some 3
  /\ merge_markdown_data Example.the_world Example.plain_collector (Some M1) R
     <> Merged M1.
Proof.
  vm_compute. repeat split. intros H. injection H. discriminate.
Qed.

(** ** What batch_import collects *)

Lemma import_step_accepted w self st p :
  accepted w self p = true ->
  exists f, import_step w self st p
            = mk_import (im_files st ++ [f]) (im_skipped st)
                (im_collected st ++ [relative_to_project w (resolve_path w p)])
                (im_total_lines st + content_lines (fi_content f))
                (count_language (im_languages st) (fi_language f))
            /\ fi_path f = relative_to_project w (resolve_path w p)
            /\ fi_language f = _detect_language w (resolve_path w p)
            /\ fi_lines f = Some (content_lines (fi_content f)).
Proof.
  unfold accepted, import_step.
  destruct (fs w (resolve_path w p)) as [| |f]; try discriminate.
  destruct (_ <? _)%Z; [discriminate|]. simpl.
  destruct (decoded f) as [content|]; [|discriminate]. simpl.
  intros H. apply negb_true_iff in H. rewrite H.
  exists (mk_file (relative_to_project w (resolve_path w p))
            (clean w self content (Py.lower (path_suffix w (resolve_path w p))))
            (_detect_language w (resolve_path w p))
            (Some (length (Py.splitlines
                     (clean w self content (Py.lower (path_suffix w (resolve_path w p)))))))
            (Some (Qmake (st_size f) 1024))).
  split; [reflexivity|]. simpl. auto.
Qed.

Lemma import_step_rejected w self st p :
  rejected w self p = true ->
  exists e, import_step w self st p
            = mk_import (im_files st) (im_skipped st ++ [e]) (im_collected st)
                (im_total_lines st) (im_languages st)
            /\ sk_path e = p.
Proof.
  unfold rejected, accepted, import_step.
  destruct (fs w (resolve_path w p)) as [| |f]; try discriminate.
  destruct (_ <? _)%Z; simpl; [intros _; eexists; split; reflexivity|].
  destruct (decoded f) as [content|]; simpl; [|intros _; eexists; split; reflexivity].
  intros H. apply negb_true_iff, negb_false_iff in H. rewrite H.
  eexists; split; reflexivity.
Qed.

Lemma import_step_ignored w self st p :
  accepted w self p = false -> rejected w self p = false ->
  import_step w self st p = st.
Proof.
  unfold rejected, import_step.
  destruct (fs w (resolve_path w p)) as [| |f]; try reflexivity.
  intros ->. discriminate.
Qed.

Lemma import_fold_paths w self paths : forall st,
  let st' := foldl (import_step w self) st paths in
  fi_path <$> im_files st'
  = (fi_path <$> im_files st)
    ++ ((fun p => relative_to_project w (resolve_path w p))
          <$> filter (fun p => accepted w self p) paths)
  /\ sk_path <$> im_skipped st'
     = (sk_path <$> im_skipped st) ++ filter (fun p => rejected w self p) paths
  /\ im_collected st'
     = im_collected st
       ++ ((fun p => relative_to_project w (resolve_path w p))
             <$> filter (fun p => accepted w self p) paths).
Proof.
  induction paths as [|p paths IH]; intros st; simpl.
  - now rewrite !app_nil_r.
  - rewrite !filter_cons.
    destruct (accepted w self p) eqn:Ha.
    + destruct (import_step_accepted w self st p Ha) as (f & E & Hp & _).
      assert (Hr : rejected w self p = false).
      { unfold rejected. rewrite Ha. now destruct (fs w (resolve_path w p)). }
      rewrite Hr. destruct (IH (import_step w self st p)) as (H1 & H2 & H3).
      rewrite H1, H2, H3, E. simpl. rewrite fmap_app. simpl. rewrite Hp.
      now rewrite <- !app_assoc.
    + destruct (rejected w self p) eqn:Hr.
      * destruct (import_step_rejected w self st p Hr) as (e & E & Hp).
        destruct (IH (import_step w self st p)) as (H1 & H2 & H3).
        rewrite H1, H2, H3, E. simpl. rewrite fmap_app. simpl. rewrite Hp.
        now rewrite <- !app_assoc.
      * rewrite (import_step_ignored w self st p Ha Hr). apply IH.
Qed.

(** [batch_import] keeps the order of its input: the file records are, in
    order, those of the paths that are regular files within the size limit,
    decodable and not junk; the skipped entries are, in order, the other
    regular files; the tree is rendered from the collected paths and
    [total_files] counts the records. *)
Theorem batch_import_partition (w : world) (self : CodeCollector) (paths : list string) :
  exists files skipped,
    pr_files (batch_import w self paths) = Some files
    /\ pr_skipped_files (batch_import w self paths) = Some skipped
    /\ fi_path <$> files
       = (fun p => relative_to_project w (resolve_path w p))
           <$> filter (fun p => accepted w self p) paths
    /\ sk_path <$> skipped = filter (fun p => rejected w self p) paths
    /\ pr_structure (batch_import w self paths)
       = Some (_generate_tree_structure w (fi_path <$> files))
    /\ total_files <$> pr_stats (batch_import w self paths)
       = Some (length (filter (fun p => accepted w self p) paths)).
Proof.
  unfold batch_import. simpl.
  destruct (import_fold_paths w self paths (mk_import [] [] [] 0 ∅)) as (H1 & H2 & H3).
  simpl in H1, H2, H3.
  eexists _, _. split; [reflexivity|]. split; [reflexivity|].
  split; [exact H1|]. split; [exact H2|]. split.
  - now rewrite H1, H3.
  - f_equal. rewrite <- (length_fmap fi_path), H1. now rewrite length_fmap.
Qed.

(** *** The statistics of an import *)

Lemma detect_language_not_empty w path : _detect_language w path <> EmptyString.
Proof.
  unfold _detect_language. generalize (Py.lower (path_suffix w path)). intros k.
  unfold lang_map.
  repeat (cbn [assoc]; destruct (String.eqb k _); [discriminate|]).
  discriminate.
Qed.

Lemma sum_list_snoc l x : sum_list (l ++ [x]) = sum_list l + x.
Proof. unfold sum_list. induction l as [|y l IH]; simpl; [lia | rewrite IH; lia]. Qed.

Lemma import_fold_stats w self paths : forall st,
  Forall (fun f => fi_language f <> EmptyString) (im_files st) ->
  im_total_lines st = sum_list ((fun f => content_lines (fi_content f)) <$> im_files st) ->
  im_languages st
  = foldl (fun langs f =>
             count_language langs
               (if String.eqb (fi_language f) EmptyString then "text" else fi_language f))
          ∅ (im_files st) ->
  let st' := foldl (import_step w self) st paths in
  Forall (fun f => fi_language f <> EmptyString) (im_files st')
  /\ im_total_lines st'
     = sum_list ((fun f => content_lines (fi_content f)) <$> im_files st')
  /\ im_languages st'
     = foldl (fun langs f =>
                count_language langs
                  (if String.eqb (fi_language f) EmptyString then "text" else fi_language f))
             ∅ (im_files st').
Proof.
  induction paths as [|p paths IH]; intros st Hne Hl Hg; simpl; [auto|].
  destruct (accepted w self p) eqn:Ha.
  - destruct (import_step_accepted w self st p Ha) as (f & E & _ & Hlang & _).
    apply IH; rewrite E; cbn [im_files im_total_lines im_languages].
    + apply Forall_app. split; [assumption|]. constructor; [|constructor].
      rewrite Hlang. apply detect_language_not_empty.
    + rewrite fmap_app. change ((fun f0 => content_lines (fi_content f0)) <$> [f])
        with [content_lines (fi_content f)].
      rewrite sum_list_snoc. now rewrite Hl.
    + rewrite foldl_app. cbn [foldl]. rewrite <- Hg.
      destruct (String.eqb_spec (fi_language f) EmptyString) as [He|_]; [|reflexivity].
      exfalso. rewrite Hlang in He. now apply detect_language_not_empty in He.
  - destruct (rejected w self p) eqn:Hr.
    + destruct (import_step_rejected w self st p Hr) as (e & E & _).
      apply IH; rewrite E; simpl; assumption.
    + rewrite (import_step_ignored w self st p Ha Hr). now apply IH.
Qed.

(** The stats that [batch_import] reports are the stats that
    [parse_existing_markdown] derives again from the same file records:
    the same [total_files], the same [total_lines] (the lines of the
    contents) and the same language counts. *)
Theorem import_stats_rederived (w : world) (self : CodeCollector) (paths : list string) :
  exists files,
    pr_files (batch_import w self paths) = Some files
    /\ pr_stats (batch_import w self paths) = Some (derived_stats w files []).
Proof.
  unfold batch_import.
  destruct (import_fold_stats w self paths (mk_import [] [] [] 0 ∅))
    as (_ & Hl & Hg); [constructor | reflexivity | reflexivity |].
  set (st := foldl (import_step w self) (mk_import [] [] [] 0 ∅) paths) in *.
  cbn [pr_files pr_stats]. exists (im_files st). split; [reflexivity|].
  unfold derived_stats, derived_total_lines. cbn [foldl fmap list_fmap length sum_list foldr].
  rewrite <- Hg, <- Hl. do 2 f_equal; lia.
Qed.

(** ** What extract_snippets returns *)

(** A target that does not exist gives the error result whatever the specs
    are, and merging an error result into a parsed document changes
    nothing: the merge looks for none of the keys it holds. *)
Theorem missing_file_merges_to_nothing (w : world) (self : CodeCollector)
    (file_path : string) (ranges : list range_spec) (S : snapshot) :
  fs w (resolve_path w file_path) = Absent ->
  extract_snippets w self file_path ranges = Some (error_result (FileNotFound file_path))
  /\ merge_markdown_data w self (Some S) (error_result (FileNotFound file_path)) = Merged S.
Proof.
  intros H. unfold extract_snippets. rewrite H. split; [reflexivity|].
  destruct S. reflexivity.
Qed.

Lemma missing_file_merges_to_nothing_witness :
  extract_snippets Example.the_world Example.plain_collector "gone.c"
    [Example.named "function" "main"] = Some (error_result (FileNotFound "gone.c"))
  /\ merge_markdown_data Example.the_world Example.plain_collector
       (Some Example.old_document) (error_result (FileNotFound "gone.c"))
     = Merged Example.old_document.
Proof. apply missing_file_merges_to_nothing. reflexivity. Defined.

Lemma extract_loop_total self content lines ext rs : forall found total found' total',
  extract_loop self content lines ext rs found total = Some (found', total') ->
  total = sum_list ((fun s => default 0 (sn_lines s)) <$> found) ->
  total' = sum_list ((fun s => default 0 (sn_lines s)) <$> found')
  /\ length found' <= length found + length rs.
Proof.
  induction rs as [|r rs IH]; simpl; intros found total found' total' E Ht.
  - injection E as <- <-. split; [exact Ht | lia].
  - destruct (extract_one self content lines ext r) as [[s|]|]; [| |discriminate].
    + apply IH in E as [E1 E2].
      * split; [exact E1|]. rewrite length_app in E2. simpl in E2. lia.
      * rewrite fmap_app, Ht. simpl. now rewrite sum_list_snoc.
    + apply IH in E as [E1 E2]; [|exact Ht]. split; [exact E1 | lia].
Qed.

(** A result of [extract_snippets] that is not an error holds one snippet
    group, for the path as it was given, with at most one snippet per spec;
    its [total_lines] is the sum of the snippets' line counts, and its stats
    count one file, the same lines and one file of the detected language. *)
Theorem extract_result_shape (w : world) (self : CodeCollector)
    (file_path : string) (ranges : list range_spec) (R : partial_result) :
  extract_snippets w self file_path ranges = Some R ->
  pr_error R = None ->
  exists found,
    pr_snippets R = Some [mk_group file_path found]
    /\ length found <= length ranges
    /\ pr_total_lines R = Some (sum_list ((fun s => default 0 (sn_lines s)) <$> found))
    /\ pr_stats R
       = Some (mk_stats 1 (sum_list ((fun s => default 0 (sn_lines s)) <$> found))
                 {[ _detect_language w (resolve_path w file_path) := 1 ]})
    /\ pr_files R = None /\ pr_skipped_files R = None /\ pr_structure R = None.
Proof.
  unfold extract_snippets. intros E Herr.
  destruct (fs w (resolve_path w file_path)) as [| |f].
  - injection E as <-. discriminate.
  - discriminate.
  - destruct (decoded f) as [content|]; [|injection E as <-; discriminate].
    destruct (extract_loop _ _ _ _ _ _ _) as [[found total]|] eqn:El; [|discriminate].
    injection E as <-. apply extract_loop_total in El as [-> Hlen]; [|reflexivity].
    exists found. simpl in Hlen. repeat split; assumption || reflexivity.
Qed.

Lemma extract_result_shape_witness :
  exists R found,
    extract_snippets Example.the_world Example.plain_collector "calc.py"
      [Example.named "function" "calculate_total"; Example.lines_range 9 100] = Some R
    /\ pr_snippets R = Some [mk_group "calc.py" found]
    /\ length found <= 2
    /\ pr_total_lines R = Some (sum_list ((fun s => default 0 (sn_lines s)) <$> found)).
Proof.
  eexists.
  destruct (extract_result_shape Example.the_world Example.plain_collector "calc.py"
              [Example.named "function" "calculate_total"; Example.lines_range 9 100]
              _ eq_refl eq_refl) as (found & H1 & H2 & H3 & _).
  exists found. split; [reflexivity|]. split; [exact H1|]. split; [exact H2 | exact H3].
Defined.

End CollectorFacts.

